(** * chrono-mcp: the date/time projection core and its JSON-RPC handler

    A shallow embedding of [src/chrono/parser.ts] ([normalizeReference],
    [extractComponents], [toISOWithOffset], [convertParsedComponent],
    [parseDateTime]) and of [handleMCPRequest] of
    [src/worker/handler.ts], followed by the properties of the
    specification that they satisfy.

    Conventions.
    - A JavaScript number that the code uses as an integer is a [Z]; a
      number that may be [NaN] is an [option Z] with [None] for [NaN].
      The arithmetic of [toISOWithOffset] is exact on doubles as long
      as the offset is a safe integer (below [2^53] in absolute value),
      and [String(n)] is the decimal numeral for an integer below
      [10^21]; the model is the integer arithmetic and the decimal
      numeral throughout.
    - A JavaScript string is a [string]; a character is a code unit
      below 256.
    - The built-ins of the language ([Date], [String], [padStart],
      [trim], [includes], [slice]) are modelled after ECMA-262.
    - chrono-node is an external library: its [parse] function and the
      [ParsedComponents] objects it returns are an interface, and the
      properties hold for every implementation of it.
    - The code is sequential with three kinds of calls that leave it:
      reading the clock, [chrono.parse] and [component.date()].  They
      are recorded in a trace, next to the clock, in the state of a
      small exception-and-state monad. *)

From Stdlib Require Import ZArith List String Ascii Bool Lia.
From Stdlib Require Import DecimalString DecimalZ.
Import ListNotations.
Local Open Scope string_scope.
Local Open Scope list_scope.
Local Open Scope Z_scope.

(** ** ECMA-262, "Time Values and Time Range" and the day/year/month
       functions (section 21.4.1) *)

Module Time.

Definition msPerDay : Z := 86400000.
Definition msPerHour : Z := 3600000.
Definition msPerMinute : Z := 60000.
Definition msPerSecond : Z := 1000.

(** The largest time value a [Date] can hold. *)
Definition maxTime : Z := 8640000000000000.

Definition Day (t : Z) : Z := t / msPerDay.
Definition TimeWithinDay (t : Z) : Z := t mod msPerDay.

Definition isLeap (y : Z) : bool :=
  ((y mod 4 =? 0) && negb (y mod 100 =? 0)) || (y mod 400 =? 0).

Definition DaysInYear (y : Z) : Z := if isLeap y then 366 else 365.

Definition DayFromYear (y : Z) : Z :=
  365 * (y - 1970) + (y - 1969) / 4 - (y - 1901) / 100 + (y - 1601) / 400.

(** ECMA-262 defines the year of a time value as the largest [y] whose
    first day is not after it.  The executable form estimates the year
    from the mean length of a Gregorian year and corrects by one;
    [YearFromDay_bracket] and [YearFromDay_largest] show that it is
    that year. *)
Definition YearFromDay (d : Z) : Z :=
  let y := 1970 + (400 * d) / 146097 in
  if DayFromYear (y + 1) <=? d then y + 1
  else if d <? DayFromYear y then y - 1
  else y.

Definition YearFromTime (t : Z) : Z := YearFromDay (Day t).

Definition InLeapYear (t : Z) : Z := if isLeap (YearFromTime t) then 1 else 0.

Definition DayWithinYear (t : Z) : Z := Day t - DayFromYear (YearFromTime t).

(** Number of days before month [m] (0 = January) in a year with
    [leap] extra days in February. *)
Definition monthStart (leap m : Z) : Z :=
  match m with
  | 0 => 0
  | 1 => 31
  | 2 => 59 + leap
  | 3 => 90 + leap
  | 4 => 120 + leap
  | 5 => 151 + leap
  | 6 => 181 + leap
  | 7 => 212 + leap
  | 8 => 243 + leap
  | 9 => 273 + leap
  | 10 => 304 + leap
  | 11 => 334 + leap
  | _ => 365 + leap
  end.

Definition MonthFromDayWithinYear (leap dwy : Z) : Z :=
  if dwy <? 31 then 0
  else if dwy <? 59 + leap then 1
  else if dwy <? 90 + leap then 2
  else if dwy <? 120 + leap then 3
  else if dwy <? 151 + leap then 4
  else if dwy <? 181 + leap then 5
  else if dwy <? 212 + leap then 6
  else if dwy <? 243 + leap then 7
  else if dwy <? 273 + leap then 8
  else if dwy <? 304 + leap then 9
  else if dwy <? 334 + leap then 10
  else 11.

Definition MonthFromTime (t : Z) : Z :=
  MonthFromDayWithinYear (InLeapYear t) (DayWithinYear t).

Definition DateFromTime (t : Z) : Z :=
  DayWithinYear t - monthStart (InLeapYear t) (MonthFromTime t) + 1.

Definition HourFromTime (t : Z) : Z := (t / msPerHour) mod 24.
Definition MinFromTime (t : Z) : Z := (t / msPerMinute) mod 60.
Definition SecFromTime (t : Z) : Z := (t / msPerSecond) mod 60.
Definition msFromTime (t : Z) : Z := t mod msPerSecond.

Definition DaysInMonth (y m : Z) : Z :=
  let leap := if isLeap y then 1 else 0 in
  monthStart leap (m + 1) - monthStart leap m.

(** [MakeTime], [MakeDay] and [MakeDate] on fields that are in range
    (month 0..11): the closed forms of the standard's definitions. *)
Definition MakeTime (h m s ms : Z) : Z :=
  h * msPerHour + m * msPerMinute + s * msPerSecond + ms.

Definition MakeDay (y m dt : Z) : Z :=
  DayFromYear y + monthStart (if isLeap y then 1 else 0) m + dt - 1.

Definition MakeDate (day time : Z) : Z := day * msPerDay + time.

(** [TimeClip]: a time value outside the range of [Date] is [NaN]. *)
Definition TimeClip (t : Z) : option Z :=
  if Z.abs t <=? maxTime then Some t else None.

End Time.

Import Time.

(** ** The built-ins of the language that the code calls *)

Module JS.

(** A number that may be [NaN]. *)
Definition Number : Type := option Z.
Definition NaN : Number := None.

Definition add (a b : Number) : Number :=
  match a, b with
  | Some x, Some y => Some (x + y)
  | _, _ => None
  end.

Definition isNaN (a : Number) : bool :=
  match a with Some _ => false | None => true end.

(** [String(n)] on an integer, and on [NaN]. *)
Definition ToString_Z (z : Z) : string := NilZero.string_of_int (Z.to_int z).

Definition ToString (n : Number) : string :=
  match n with
  | Some z => ToString_Z z
  | None => "NaN"
  end.

(** [n] characters taken from [fill] over and over; [cur] is what is
    left of the current copy. *)
Fixpoint repeat_to (n : nat) (fill cur : string) : string :=
  match n with
  | O => ""
  | S n' =>
      match cur with
      | String c rest => String c (repeat_to n' fill rest)
      | EmptyString =>
          match fill with
          | String c rest => String c (repeat_to n' fill rest)
          | EmptyString => ""
          end
      end
  end.

(** [s.padStart(targetLength, fill)] *)
Definition padStart (targetLength : nat) (fill : string) (s : string) : string :=
  if (targetLength <=? length s)%nat then s
  else repeat_to (targetLength - length s) fill fill ++ s.

(** White space and line terminators among the code units below 256. *)
Definition isWhiteSpace (c : ascii) : bool :=
  let n := nat_of_ascii c in
  ((9 <=? n) && (n <=? 13) || (n =? 32) || (n =? 160))%nat.

Fixpoint trimStart (s : string) : string :=
  match s with
  | String c rest => if isWhiteSpace c then trimStart rest else s
  | EmptyString => EmptyString
  end.

(** [trimEnd] as a right fold: a character is dropped when it is white
    space and nothing is kept after it. *)
Fixpoint trimEnd (s : string) : string :=
  match s with
  | String c rest =>
      match trimEnd rest with
      | EmptyString => if isWhiteSpace c then EmptyString else String c EmptyString
      | kept => String c kept
      end
  | EmptyString => EmptyString
  end.

Definition trim (s : string) : string := trimEnd (trimStart s).

(** [s.includes(sub)] *)
Definition includes (s sub : string) : bool :=
  match index 0 sub s with
  | Some _ => true
  | None => false
  end.

(** [xs.slice(0, 1)] *)
Definition slice_0_1 {A} (xs : list A) : list A := firstn 1 xs.

(** The values a field of a JSON argument object can hold, as far as
    the code tells them apart. *)
Inductive Value : Type :=
| Undefined
| Null
| Bool (b : bool)
| Num (n : Number)
| Str (s : string)
| Object.

(** [ToBoolean] *)
Definition truthy (v : Value) : bool :=
  match v with
  | Undefined | Null => false
  | Bool b => b
  | Num None => false
  | Num (Some z) => negb (z =? 0)
  | Str s => negb (String.eqb s "")
  | Object => true
  end.

(** [typeof v === "string"] *)
Definition isString (v : Value) : bool :=
  match v with Str _ => true | _ => false end.

(** [v === "..."] against a string literal *)
Definition strictEqStr (v : Value) (lit : string) : bool :=
  match v with Str s => String.eqb s lit | _ => false end.

(** A [Date] object holds a time value, which is [NaN] for an invalid
    date. *)
Record Date : Type := mkDate { getTime : Number }.

(** [new Date(value)] on a number. *)
Definition Date_of_number (v : Number) : Date :=
  mkDate (match v with Some t => TimeClip t | None => None end).

Definition getUTCFullYear (d : Date) : Number := option_map YearFromTime (getTime d).
Definition getUTCMonth (d : Date) : Number := option_map MonthFromTime (getTime d).
Definition getUTCDate (d : Date) : Number := option_map DateFromTime (getTime d).
Definition getUTCHours (d : Date) : Number := option_map HourFromTime (getTime d).
Definition getUTCMinutes (d : Date) : Number := option_map MinFromTime (getTime d).
Definition getUTCSeconds (d : Date) : Number := option_map SecFromTime (getTime d).
Definition getUTCMilliseconds (d : Date) : Number := option_map msFromTime (getTime d).

End JS.

Import JS.

(** ** chrono-node, as far as the code uses it *)

Module Chrono.

(** [chrono.ParsedComponents]: the three methods the code calls.
    [get] answers [None] for [null]. *)
Record ParsedComponents : Type := mkComponents {
  isCertain : string -> bool;
  get : string -> option Z;
  date : Date
}.

(** [chrono.ParsedResult] *)
Record ParsedResult : Type := mkResult {
  text : string;
  start : ParsedComponents;
  end_ : option ParsedComponents
}.

End Chrono.

(** ** Exceptions, the clock and the calls into chrono-node *)

(** What a [throw] carries: an [Error] object with its message, or
    any other value. *)
Inductive Thrown : Type :=
| ErrorObj (message : string)
| NonError.

(** The calls that leave the module: reading the clock ([new Date()]),
    [chrono.parse] with its arguments, and the resolution of a component
    set to an instant ([component.date()]). *)
Inductive Event : Type :=
| EvNow
| EvParse (text : string) (instant : Date) (timezone : Z) (forwardDate : bool)
| EvDate (component : Chrono.ParsedComponents).

Record World : Type := mkWorld {
  clock : Z;
  trace : list Event
}.

Definition M (A : Type) : Type := World -> (Thrown + A) * World.

Definition ret {A} (a : A) : M A := fun w => (inr a, w).

Definition throw {A} (e : Thrown) : M A := fun w => (inl e, w).

Definition bind {A B} (m : M A) (k : A -> M B) : M B :=
  fun w =>
    match m w with
    | (inr a, w') => k a w'
    | (inl e, w') => (inl e, w')
    end.

Declare Scope js_scope.
Delimit Scope js_scope with js.
Notation "x <- m ;; k" := (bind m (fun x => k))
  (at level 61, m at next level, right associativity) : js_scope.
Notation "m ;;; k" := (bind m (fun _ => k))
  (at level 61, right associativity) : js_scope.
Local Open Scope js_scope.

Definition emit (e : Event) : M unit :=
  fun w => (inr tt, mkWorld (clock w) (trace w ++ [e])).

(** [new Date()] *)
Definition Date_now : M Date :=
  fun w => (inr (mkDate (Some (clock w))), mkWorld (clock w) (trace w ++ [EvNow])).

Definition lift {A} (r : Thrown + A) : M A :=
  match r with
  | inr a => ret a
  | inl e => throw e
  end.

(** [xs.map(f)] for an [f] with effects. *)
Fixpoint mapM {A B} (f : A -> M B) (xs : list A) : M (list B) :=
  match xs with
  | [] => ret []
  | x :: rest => y <- f x ;; ys <- mapM f rest ;; ret (y :: ys)
  end.

(** ** [src/chrono/types.ts] *)

Module Input.
(** [ChronoParseInput].  [text] and [mode] are kept as untyped values,
    since the code tests what they are; the other fields are as
    declared, [None] when absent. *)
Record ChronoParseInput : Type := mk {
  text : Value;
  reference : option string;
  timezone_offset : option Z;
  forwardOnly : option bool;
  mode : Value
}.
End Input.

Record ParsedDateTime : Type := mkParsedDateTime {
  iso : string;
  unix : Number;
  timezoneOffset : option Z;
  certain : list string;
  implied : list string
}.

Record ParseResult : Type := mkParseResult {
  text : string;
  isRange : bool;
  start : ParsedDateTime;
  end_ : option ParsedDateTime
}.

Record ChronoParseOutput : Type := mkOutput {
  results : list ParseResult;
  summary : string
}.

(** ** [src/chrono/parser.ts] *)

Section Parser.

(** The time value of [new Date(s)] for a string [s]: ECMA-262 fixes it
    on the Date Time String Format only and leaves the rest to the
    engine. *)
Variable Date_parse : string -> Number.

(** [chrono.parse(text, {instant, timezone}, {forwardDate})]; it may
    throw. *)
Variable chrono_parse :
  string -> Date -> Z -> bool -> Thrown + list Chrono.ParsedResult.

Definition normalizeReference (ref : option string) : M Date :=
  match ref with
  | None => Date_now
  | Some r =>
      if String.eqb r "" || String.eqb (trim r) "" then Date_now
      else
        let parsed := mkDate (Date_parse r) in
        if isNaN (getTime parsed)
        then throw (ErrorObj ("Invalid reference date: " ++ r))
        else ret parsed
  end.

Definition allKeys : list string :=
  ["year"; "month"; "day"; "hour"; "minute"; "second"; "millisecond";
   "timezoneOffset"].

(** The two arrays of [extractComponents], grown by [push] along the
    loop over [allKeys]. *)
Definition extractComponents (components : Chrono.ParsedComponents)
  : list string * list string :=
  fold_left
    (fun (acc : list string * list string) key =>
       let (certain, implied) := acc in
       if Chrono.isCertain components key then (certain ++ [key], implied)
       else
         match Chrono.get components key with
         | Some _ => (certain, implied ++ [key])
         | None => (certain, implied)
         end)
    allKeys ([], []).

Definition toISOWithOffset (date : Date) (offsetMinutes : Z) : string :=
  let utcTime := getTime date in
  let localTime := Date_of_number (add utcTime (Some (offsetMinutes * 60 * 1000))) in
  let year := getUTCFullYear localTime in
  let month := padStart 2 "0" (ToString (add (getUTCMonth localTime) (Some 1))) in
  let day := padStart 2 "0" (ToString (getUTCDate localTime)) in
  let hour := padStart 2 "0" (ToString (getUTCHours localTime)) in
  let minute := padStart 2 "0" (ToString (getUTCMinutes localTime)) in
  let second := padStart 2 "0" (ToString (getUTCSeconds localTime)) in
  let ms := padStart 3 "0" (ToString (getUTCMilliseconds localTime)) in
  let sign := if offsetMinutes >=? 0 then "+" else "-" in
  let absOffset := Z.abs offsetMinutes in
  let offsetHours := padStart 2 "0" (ToString_Z (absOffset / 60)) in
  let offsetMins := padStart 2 "0" (ToString_Z (Z.rem absOffset 60)) in
  ToString year ++ "-" ++ month ++ "-" ++ day ++ "T" ++ hour ++ ":" ++ minute
    ++ ":" ++ second ++ "." ++ ms ++ sign ++ offsetHours ++ ":" ++ offsetMins.

Definition convertParsedComponent
  (component : Chrono.ParsedComponents) (outputOffset : Z) : M ParsedDateTime :=
  emit (EvDate component) ;;;
  let date := Chrono.date component in
  let (certain, implied) := extractComponents component in
  ret {| iso := toISOWithOffset date outputOffset;
         unix := getTime date;
         timezoneOffset := Chrono.get component "timezoneOffset";
         certain := certain;
         implied := implied |}.

(** The string a value is, once [typeof] said it is one. *)
Definition asString (v : Value) : string :=
  match v with Str s => s | _ => "" end.

(** The callback of [parseResults.map]. *)
Definition convertResult (timezoneOffset : Z) (result : Chrono.ParsedResult)
  : M ParseResult :=
  let isRange := match Chrono.end_ result with Some _ => true | None => false end in
  st <- convertParsedComponent (Chrono.start result) timezoneOffset ;;
  match Chrono.end_ result with
  | Some e =>
      en <- convertParsedComponent e timezoneOffset ;;
      ret {| text := Chrono.text result; isRange := isRange;
             start := st; end_ := Some en |}
  | None =>
      ret {| text := Chrono.text result; isRange := isRange;
             start := st; end_ := None |}
  end.

(** The summary line of a non-empty result list. *)
Definition makeSummary (results : list ParseResult) : string :=
  if (List.length results =? 1)%nat then
    match results with
    | r :: _ =>
        if isRange r
        then "Parsed range: " ++ iso (start r) ++ " to "
               ++ match end_ r with Some e => iso e | None => "undefined" end
        else "Parsed: " ++ iso (start r)
    | [] => "undefined"
    end
  else "Parsed " ++ ToString_Z (Z.of_nat (List.length results)) ++ " date/time expressions".

Definition parseDateTime (input : Input.ChronoParseInput) : M ChronoParseOutput :=
  if negb (truthy (Input.text input)) || negb (isString (Input.text input))
  then throw (ErrorObj "text is required and must be a string")
  else
    refDate <- normalizeReference (Input.reference input) ;;
    let timezoneOffset :=
      match Input.timezone_offset input with Some z => z | None => 0 end in
    let forwardDate :=
      match Input.forwardOnly input with Some b => b | None => true end in
    let text := asString (Input.text input) in
    all <- (emit (EvParse text refDate timezoneOffset forwardDate) ;;;
            lift (chrono_parse text refDate timezoneOffset forwardDate)) ;;
    let parseResults :=
      if strictEqStr (Input.mode input) "all" then all else slice_0_1 all in
    if (List.length parseResults =? 0)%nat
    then ret {| results := []; summary := "No date/time expressions found" |}
    else
      results <- mapM (convertResult timezoneOffset) parseResults ;;
      ret {| results := results; summary := makeSummary results |}.

End Parser.

(** ** [src/worker/handler.ts]: [handleMCPRequest] *)

Module Handler.

(** A member of a JSON object where the code tells [undefined] from
    [null]: absent, [null], or a value. *)
Inductive Member (A : Type) : Type :=
| Absent
| IsNull
| Present (a : A).
Arguments Absent {A}.
Arguments IsNull {A}.
Arguments Present {A} a.

Module Args.
(** The [arguments] object of a call as it arrives.  The handler tests
    [timezone_offset] against [undefined], so [null] is kept apart
    there; in the other members the code takes [null] and [undefined]
    alike, and they are as in [ChronoParseInput]. *)
Record Arguments : Type := mk {
  text : Value;
  reference : option string;
  timezone_offset : Member Z;
  forwardOnly : option bool;
  mode : Value
}.
End Args.

Record Params : Type := mkParams {
  name : Value;
  arguments : option Args.Arguments
}.

Record JSONRPCRequest : Type := mkRequest {
  id : Value;
  method : string;
  params : option Params
}.

Record RpcError : Type := mkError {
  code : Z;
  message : string
}.

(** The [result] member of a response.  The static text of the
    [initialize] and [tools/list] answers is not spelled out; the tool
    list depends on the default offset only.  The tool result is kept
    as the structure that the code serialises with [JSON.stringify]. *)
Inductive Payload : Type :=
| InitializeResult
| ToolsListResult (defaultTimezoneOffset : option Z)
| ToolCallResult (output : ChronoParseOutput)
| EmptyResult.

Record JSONRPCResponse : Type := mkResponse {
  response_id : Value;
  result : option Payload;
  error : option RpcError
}.

(** [{}] *)
Definition emptyArguments : Args.Arguments :=
  Args.mk Undefined None Absent None Undefined.

(** The arguments handed to [parseDateTime]: [request.params.arguments || {}],
    with [timezone_offset] set to the default from the query parameter
    when it is [undefined] in the arguments and there is a default.  A
    [timezone_offset] of [null] is left as it is; [parseDateTime] reads
    the member through [?? 0] only, under which [null] is as an absent
    member. *)
Definition toolArguments (p : Params) (defaultTimezoneOffset : option Z)
  : Input.ChronoParseInput :=
  let args := match arguments p with Some a => a | None => emptyArguments end in
  let timezone_offset :=
    match Args.timezone_offset args, defaultTimezoneOffset with
    | Absent, Some d => Present d
    | given, _ => given
    end in
  Input.mk (Args.text args) (Args.reference args)
           (match timezone_offset with Present z => Some z | _ => None end)
           (Args.forwardOnly args) (Args.mode args).

Section Tool.

(** The function imported from [../chrono/index.ts]. *)
Variable parseDateTime : Input.ChronoParseInput -> M ChronoParseOutput.

(** [error instanceof Error ? error.message : "Unknown error"] *)
Definition messageOf (e : Thrown) : string :=
  match e with
  | ErrorObj m => m
  | NonError => "Unknown error"
  end.

(** The [catch] block of the [tools/call] case. *)
Definition toolError (request : JSONRPCRequest) (e : Thrown) : JSONRPCResponse :=
  let message := messageOf e in
  let code :=
    if includes message "required" || includes message "Invalid"
    then -32602 else -32603 in
  mkResponse (id request) None (Some (mkError code message)).

Definition handleMCPRequest
  (request : JSONRPCRequest) (defaultTimezoneOffset : option Z)
  : World -> JSONRPCResponse * World :=
  fun w =>
    if String.eqb (method request) "initialize" then
      (mkResponse (id request) (Some InitializeResult) None, w)
    else if String.eqb (method request) "tools/list" then
      (mkResponse (id request) (Some (ToolsListResult defaultTimezoneOffset)) None, w)
    else if String.eqb (method request) "tools/call" then
      match params request with
      | None => (mkResponse (id request) None (Some (mkError (-32602) "Unknown tool")), w)
      | Some p =>
          if negb (strictEqStr (name p) "chrono_parse") then
            (mkResponse (id request) None (Some (mkError (-32602) "Unknown tool")), w)
          else
            let args := toolArguments p defaultTimezoneOffset in
            match parseDateTime args w with
            | (inr output, w') =>
                (mkResponse (id request) (Some (ToolCallResult output)) None, w')
            | (inl e, w') => (toolError request e, w')
            end
      end
    else if String.eqb (method request) "notifications/initialized" then
      (mkResponse Undefined (Some EmptyResult) None, w)
    else
      (mkResponse (id request) None (Some (mkError (-32601) "Method not found")), w).

End Tool.

End Handler.

(** ** The Date Time String Format (ECMA-262, 21.4.1.32)

    [Date.parse] on the strings of the format: a year of four digits
    or an expanded year of six digits with its sign, then optionally
    [-MM] and [-DD], then optionally [T] with one of the time forms
    [HH:mm], [HH:mm:ss] and [HH:mm:ss.sss] and, after the time,
    optionally [Z] or a UTC offset [+HH:mm] / [-HH:mm].  An absent
    month or day is 1, an absent time element is 0; a date-only form
    is UTC; a date-time form without offset is local time, and the
    host of the worker keeps UTC as its local time.  A string that is
    not of the format, or whose elements are out of bounds, gets [NaN]
    here; the standard leaves those strings to the engine. *)

Module ISO.

Definition digit_val (c : ascii) : option Z :=
  let n := Z.of_nat (nat_of_ascii c) in
  if (48 <=? n) && (n <=? 57) then Some (n - 48) else None.

(** Exactly [k] decimal digits, most significant first. *)
Fixpoint read_digits (k : nat) (acc : Z) (s : string) : option (Z * string) :=
  match k with
  | O => Some (acc, s)
  | S k' =>
      match s with
      | String c rest =>
          match digit_val c with
          | Some v => read_digits k' (acc * 10 + v) rest
          | None => None
          end
      | EmptyString => None
      end
  end.

Definition expect (c : ascii) (s : string) : option string :=
  match s with
  | String c' rest => if Ascii.eqb c c' then Some rest else None
  | EmptyString => None
  end.

Notation "'let?' x := m 'in' k" :=
  (match m with Some x => k | None => None end)
  (at level 10, x pattern, k at level 200).

(** The time zone designator: [Z], or a sign and [HH:mm] with the
    hour up to 23 and the minute up to 59.  The answer is the offset
    in minutes. *)
Definition read_offset (s : string) : option Z :=
  match s with
  | String c rest =>
      if Ascii.eqb c "Z" then
        match rest with EmptyString => Some 0 | _ => None end
      else
        let? sign :=
          (if Ascii.eqb c "+" then Some 1
           else if Ascii.eqb c "-" then Some (-1) else None) in
        let? (oh, rest) := read_digits 2 0 rest in
        let? rest := expect ":" rest in
        let? (om, rest) := read_digits 2 0 rest in
        match rest with
        | EmptyString =>
            if (oh <=? 23) && (om <=? 59) then Some (sign * (oh * 60 + om))
            else None
        | _ => None
        end
  | EmptyString => None
  end.

(** The offset of local time from UTC on the host, in minutes. *)
Definition localOffsetMinutes : Z := 0.

(** The year: four digits, or a sign and six digits, [-000000]
    excepted. *)
Definition read_year (s : string) : option (Z * string) :=
  match s with
  | String c rest =>
      if Ascii.eqb c "+" then read_digits 6 0 rest
      else if Ascii.eqb c "-" then
        let? (y, rest') := read_digits 6 0 rest in
        if y =? 0 then None else Some (- y, rest')
      else read_digits 4 0 s
  | EmptyString => None
  end.

(** An optional element of two digits after the separator [sep];
    [default] when the separator does not follow. *)
Definition read_part (sep : ascii) (default : Z) (s : string)
  : option (Z * string) :=
  match s with
  | String c rest =>
      if Ascii.eqb c sep then read_digits 2 0 rest else Some (default, s)
  | EmptyString => Some (default, s)
  end.

(** The time forms: hours and minutes, then optionally seconds, then
    optionally milliseconds. *)
Definition read_time (s : string) : option (Z * Z * Z * Z * string) :=
  let? (h, s) := read_digits 2 0 s in
  let? s := expect ":" s in
  let? (mi, s) := read_digits 2 0 s in
  match s with
  | String c s1 =>
      if Ascii.eqb c ":" then
        let? (sec, s2) := read_digits 2 0 s1 in
        match s2 with
        | String c2 s3 =>
            if Ascii.eqb c2 "." then
              let? (ms, s4) := read_digits 3 0 s3 in
              Some (h, mi, sec, ms, s4)
            else Some (h, mi, sec, 0, s2)
        | EmptyString => Some (h, mi, sec, 0, s2)
        end
      else Some (h, mi, 0, 0, s)
  | EmptyString => Some (h, mi, 0, 0, s)
  end.

(** What follows the time: nothing (local time), or the time zone
    designator. *)
Definition read_zone (s : string) : option Z :=
  match s with
  | EmptyString => Some localOffsetMinutes
  | _ => read_offset s
  end.

(** The time after the date: nothing (a date-only form, midnight
    UTC), or [T] with a time and its zone. *)
Definition read_time_zone (s : string) : option (Z * Z * Z * Z * Z) :=
  match s with
  | EmptyString => Some (0, 0, 0, 0, 0)
  | String c rest =>
      if Ascii.eqb c "T" then
        let? (h, mi, sec, ms, s) := read_time rest in
        let? off := read_zone s in
        Some (h, mi, sec, ms, off)
      else None
  end.

Definition Date_parse (s : string) : Number :=
  let? (y, s) := read_year s in
  let? (mo, s) := read_part "-" 1 s in
  let? (d, s) := read_part "-" 1 s in
  let? (h, mi, sec, ms, off) := read_time_zone s in
  if (1 <=? mo) && (mo <=? 12) && (1 <=? d) && (d <=? 31)
     && ((h <=? 23) || ((h =? 24) && (mi =? 0) && (sec =? 0) && (ms =? 0)))
     && (mi <=? 59) && (sec <=? 59)
  then TimeClip (MakeDate (MakeDay y (mo - 1) d) (MakeTime h mi sec ms)
                 - off * msPerMinute)
  else None.

(** The decimal digit [d] as a character. *)
Definition digit_char (d : Z) : ascii := ascii_of_nat (48 + Z.to_nat d).

(** [n] written with exactly [k] decimal digits, zero-padded. *)
Fixpoint fixed (k : nat) (n : Z) : string :=
  match k with
  | O => EmptyString
  | S k' => String (digit_char ((n / 10 ^ Z.of_nat k') mod 10)) (fixed k' n)
  end.

Definition is_digit (c : ascii) : bool :=
  match digit_val c with Some _ => true | None => false end.

(** The shape [dddd-dd-ddTdd:dd:dd.ddd], then a sign, then [dd:dd]:
    each character of the pattern against the character of the string
    at the same place, [d] standing for a decimal digit and [s] for a
    sign. *)
Fixpoint matches (pattern s : string) : bool :=
  match pattern, s with
  | EmptyString, EmptyString => true
  | String p pattern', String c s' =>
      (if Ascii.eqb p "d" then is_digit c
       else if Ascii.eqb p "s" then Ascii.eqb c "+" || Ascii.eqb c "-"
       else Ascii.eqb p c)
      && matches pattern' s'
  | _, _ => false
  end.

Definition iso_shape (s : string) : bool :=
  matches "dddd-dd-ddTdd:dd:dd.dddsdd:dd" s.

End ISO.

Import ISO.

(** ** Definitions used to state the properties *)

(** The rendering as the specification words it: the UTC calendar and
    clock fields of the shifted time value [localTime], each with its
    fixed number of digits, then the sign of the offset and its hours
    and minutes. *)
Definition renderISO (localTime offsetMinutes : Z) : string :=
  fixed 4 (YearFromTime localTime) ++ "-"
    ++ fixed 2 (MonthFromTime localTime + 1) ++ "-"
    ++ fixed 2 (DateFromTime localTime) ++ "T"
    ++ fixed 2 (HourFromTime localTime) ++ ":"
    ++ fixed 2 (MinFromTime localTime) ++ ":"
    ++ fixed 2 (SecFromTime localTime) ++ "."
    ++ fixed 3 (msFromTime localTime)
    ++ (if 0 <=? offsetMinutes then "+" else "-")
    ++ fixed 2 (Z.abs offsetMinutes / 60) ++ ":"
    ++ fixed 2 (Z.abs offsetMinutes mod 60).

(** What [convertParsedComponent] returns. *)
Definition projectComponent (c : Chrono.ParsedComponents) (outputOffset : Z)
  : ParsedDateTime :=
  {| iso := toISOWithOffset (Chrono.date c) outputOffset;
     unix := getTime (Chrono.date c);
     timezoneOffset := Chrono.get c "timezoneOffset";
     certain := fst (extractComponents c);
     implied := snd (extractComponents c) |}.

(** What the callback of [map] returns for a candidate. *)
Definition project (timezoneOffset : Z) (r : Chrono.ParsedResult) : ParseResult :=
  {| text := Chrono.text r;
     isRange := match Chrono.end_ r with Some _ => true | None => false end;
     start := projectComponent (Chrono.start r) timezoneOffset;
     end_ := option_map (fun e => projectComponent e timezoneOffset) (Chrono.end_ r) |}.

(** The component sets a projection resolves, in the order of the calls. *)
Definition projectEvents (r : Chrono.ParsedResult) : list Event :=
  EvDate (Chrono.start r)
    :: match Chrono.end_ r with Some e => [EvDate e] | None => [] end.

(** The world after further calls. *)
Definition logged (w : World) (events : list Event) : World :=
  mkWorld (clock w) (trace w ++ events).

(** The candidates that are projected. *)
Definition selected (mode : Value) (all : list Chrono.ParsedResult)
  : list Chrono.ParsedResult :=
  if strictEqStr mode "all" then all else firstn 1 all.

(** [input.timezone_offset ?? 0] and [input.forwardOnly ?? true] *)
Definition offsetOf (input : Input.ChronoParseInput) : Z :=
  match Input.timezone_offset input with Some z => z | None => 0 end.

Definition forwardOf (input : Input.ChronoParseInput) : bool :=
  match Input.forwardOnly input with Some b => b | None => true end.

(** The test of the second branch of the loop of [extractComponents]:
    not explicit, and with a value. *)
Definition isImplied (c : Chrono.ParsedComponents) (key : string) : bool :=
  negb (Chrono.isCertain c key)
  && match Chrono.get c key with Some _ => true | None => false end.

(** A component set in which every field marked explicit has a value. *)
Definition explicitHasValue (c : Chrono.ParsedComponents) : Prop :=
  forall key, Chrono.isCertain c key = true -> Chrono.get c key <> None.

(** A string of white space only, the empty string included. *)
Fixpoint blank (s : string) : bool :=
  match s with
  | EmptyString => true
  | String c rest => isWhiteSpace c && blank rest
  end.

(** A request with another [mode], and with another [timezone_offset]. *)
Definition withMode (input : Input.ChronoParseInput) (mode : Value)
  : Input.ChronoParseInput :=
  Input.mk (Input.text input) (Input.reference input)
           (Input.timezone_offset input) (Input.forwardOnly input) mode.

Definition withOffset (input : Input.ChronoParseInput) (offset : option Z)
  : Input.ChronoParseInput :=
  Input.mk (Input.text input) (Input.reference input) offset
           (Input.forwardOnly input) (Input.mode input).

(** A [ParsedDateTime] without its rendering. *)
Definition withoutIso (p : ParsedDateTime)
  : Number * option Z * list string * list string :=
  (unix p, timezoneOffset p, certain p, implied p).

(** A result without its renderings. *)
Definition resultWithoutIso (r : ParseResult) :=
  (text r, isRange r, withoutIso (start r), option_map withoutIso (end_ r)).

(** The [unix] values of a response, start and end of each result. *)
Definition unixValues (out : ChronoParseOutput) : list (Number * option Number) :=
  map (fun r => (unix (start r), option_map unix (end_ r))) (results out).

(** [offset ?? 0] *)
Definition offsetOrZero (offset : option Z) : Z :=
  match offset with Some z => z | None => 0 end.

(** The summary as specified: a function of the result list. *)
Definition summarySpec (results : list ParseResult) : string :=
  match results with
  | [] => "No date/time expressions found"
  | [r] =>
      match isRange r, end_ r with
      | true, Some e => "Parsed range: " ++ iso (start r) ++ " to " ++ iso e
      | _, _ => "Parsed: " ++ iso (start r)
      end
  | _ => "Parsed " ++ ToString_Z (Z.of_nat (List.length results))
           ++ " date/time expressions"
  end.

(** [sub] occurs in [s]. *)
Definition contains (s sub : string) : Prop :=
  exists a b : string, s = append a (append sub b).

(** A property of the integers below [n], decided by enumeration. *)
Definition below (n : Z) (f : Z -> bool) : bool :=
  forallb f (map Z.of_nat (seq 0 (Z.to_nat n))).

(** ** Sample component sets and grammar capabilities *)

Module Sample.

(** "March 15" against a reference in 2025: month and day are stated,
    the rest is filled in, and there is no time zone. *)
Definition march15 : Chrono.ParsedComponents :=
  {| Chrono.isCertain := fun key => String.eqb key "month" || String.eqb key "day";
     Chrono.get := fun key =>
       if String.eqb key "year" then Some 2025
       else if String.eqb key "month" then Some 3
       else if String.eqb key "day" then Some 15
       else if String.eqb key "hour" then Some 12
       else if String.eqb key "minute" then Some 0
       else if String.eqb key "second" then Some 0
       else if String.eqb key "millisecond" then Some 0
       else None;
     Chrono.date := mkDate (Some 1742040000000) |}.

(** "5pm", understood on 1970-01-01 in the time zone of the reference:
    the instant depends on that zone. *)
Definition fivePm (timezone : Z) : Chrono.ParsedComponents :=
  {| Chrono.isCertain := fun key => String.eqb key "hour";
     Chrono.get := fun key =>
       if String.eqb key "year" then Some 1970
       else if String.eqb key "month" then Some 1
       else if String.eqb key "day" then Some 1
       else if String.eqb key "hour" then Some 17
       else if String.eqb key "minute" then Some 0
       else if String.eqb key "second" then Some 0
       else if String.eqb key "millisecond" then Some 0
       else None;
     Chrono.date := mkDate (Some (17 * msPerHour - timezone * msPerMinute)) |}.

(** A capability that reads a wall-clock time in the time zone of the
    reference, as chrono-node does for a text without a zone. *)
Definition wallClockParse (text : string) (instant : Date) (timezone : Z)
  (forwardDate : bool) : Thrown + list Chrono.ParsedResult :=
  inr [Chrono.mkResult text (fivePm timezone) None].

(** A capability that finds a date and then a range in every text. *)
Definition twoMatches (text : string) (instant : Date) (timezone : Z)
  (forwardDate : bool) : Thrown + list Chrono.ParsedResult :=
  inr [Chrono.mkResult "March 15" march15 None;
       Chrono.mkResult "5pm to 5pm" (fivePm 0) (Some (fivePm (-60)))].

(** A capability that finds nothing. *)
Definition noMatch (text : string) (instant : Date) (timezone : Z)
  (forwardDate : bool) : Thrown + list Chrono.ParsedResult :=
  inr [].

(** A capability that fails. *)
Definition brokenParse (text : string) (instant : Date) (timezone : Z)
  (forwardDate : bool) : Thrown + list Chrono.ParsedResult :=
  inl (ErrorObj "Cannot read properties of undefined").

(** A world whose clock shows 2025-10-04T10:00:00Z, before any call. *)
Definition world0 : World := mkWorld 1759572000000 [].

(** A request with the reference 2025-10-04T10:00:00Z. *)
Definition request (text : Value) (offset : option Z) (mode : Value)
  : Input.ChronoParseInput :=
  Input.mk text (Some "2025-10-04T10:00:00.000Z") offset None mode.

End Sample.

(** The instant of that reference. *)
Definition sampleRef : Date := mkDate (Some 1759572000000).

(** The arguments object that holds the members of a typed input. *)
Definition argumentsOf (input : Input.ChronoParseInput) : Handler.Args.Arguments :=
  Handler.Args.mk (Input.text input) (Input.reference input)
    (match Input.timezone_offset input with
     | Some z => Handler.Present z
     | None => Handler.Absent
     end)
    (Input.forwardOnly input) (Input.mode input).

(** A [tools/call] of [chrono_parse] with the given arguments. *)
Definition sampleCall (args : Input.ChronoParseInput) : Handler.JSONRPCRequest :=
  Handler.mkRequest (Num (Some 1)) "tools/call"
    (Some (Handler.mkParams (Str "chrono_parse") (Some (argumentsOf args)))).

(** ** Further definitions used to state properties *)

(** The part of a rendering after the milliseconds, which
    [toISOWithOffset] computes from the offset alone: [sign],
    [offsetHours], a colon and [offsetMins]. *)
Definition offsetSuffix (offsetMinutes : Z) : string :=
  (if offsetMinutes >=? 0 then "+" else "-")
    ++ padStart 2 "0" (ToString_Z (Z.abs offsetMinutes / 60)) ++ ":"
    ++ padStart 2 "0" (ToString_Z (Z.rem (Z.abs offsetMinutes) 60)).

(** The part of a rendering up to the milliseconds, which
    [toISOWithOffset] reads off the date [localTime]. *)
Definition dateTimePart (localTime : Date) : string :=
  ToString (getUTCFullYear localTime) ++ "-"
    ++ padStart 2 "0" (ToString (add (getUTCMonth localTime) (Some 1))) ++ "-"
    ++ padStart 2 "0" (ToString (getUTCDate localTime)) ++ "T"
    ++ padStart 2 "0" (ToString (getUTCHours localTime)) ++ ":"
    ++ padStart 2 "0" (ToString (getUTCMinutes localTime)) ++ ":"
    ++ padStart 2 "0" (ToString (getUTCSeconds localTime)) ++ "."
    ++ padStart 3 "0" (ToString (getUTCMilliseconds localTime)).

(** [s] ends with [suffix]. *)
Definition endsWith (s suffix : string) : Prop :=
  exists body : string, s = append body suffix.

(** A request with its defaults written out: a blank reference is no
    reference, an absent [timezone_offset] is 0 and an absent
    [forwardOnly] is [true]. *)
Definition withDefaults (input : Input.ChronoParseInput) : Input.ChronoParseInput :=
  Input.mk (Input.text input)
    (match Input.reference input with
     | Some r => if blank r then None else Some r
     | None => None
     end)
    (Some (offsetOf input)) (Some (forwardOf input)) (Input.mode input).

(** The kinds of calls in a trace. *)
Definition isNow (e : Event) : bool :=
  match e with EvNow => true | _ => false end.
Definition isParse (e : Event) : bool :=
  match e with EvParse _ _ _ _ => true | _ => false end.
Definition isDate (e : Event) : bool :=
  match e with EvDate _ => true | _ => false end.

Definition count (p : Event -> bool) (events : list Event) : nat :=
  List.length (filter p events).

(** The number of [ParsedDateTime] objects in a result list: a start
    for each result and an end for each range. *)
Definition parsedDateTimes (results : list ParseResult) : nat :=
  fold_right (fun r n => (match end_ r with Some _ => 2 | None => 1 end + n)%nat)
             0%nat results.

(** * Properties *)

(** Linear arithmetic with division and remainder by constants. *)
Ltac zdiv := Z.to_euclidean_division_equations; lia.

Module TimeFacts.

Lemma DayFromYear_succ y : DayFromYear (y + 1) = DayFromYear y + DaysInYear y.
Proof.
  unfold DayFromYear, DaysInYear, isLeap.
  destruct (Z.eqb_spec (y mod 4) 0) as [E4|E4];
    destruct (Z.eqb_spec (y mod 100) 0) as [E100|E100];
    destruct (Z.eqb_spec (y mod 400) 0) as [E400|E400];
    cbn [andb orb negb]; zdiv.
Qed.

Lemma DaysInYear_pos y : 365 <= DaysInYear y <= 366.
Proof. unfold DaysInYear; destruct (isLeap y); lia. Qed.

Lemma DayFromYear_mean y :
  146097 * (y - 1970) - 600 <= 400 * DayFromYear y
  <= 146097 * (y - 1970) + 600.
Proof. unfold DayFromYear; zdiv. Qed.

Lemma DayFromYear_mono y y' : y <= y' -> DayFromYear y <= DayFromYear y'.
Proof.
  intros H. replace y' with (y + Z.of_nat (Z.to_nat (y' - y))) by lia.
  induction (Z.to_nat (y' - y)) as [|n IH].
  - replace (y + Z.of_nat 0) with y by lia. lia.
  - replace (y + Z.of_nat (S n)) with (y + Z.of_nat n + 1) by lia.
    rewrite DayFromYear_succ. pose proof (DaysInYear_pos (y + Z.of_nat n)). lia.
Qed.

Lemma DayFromYear_lt_inv y y' : DayFromYear y < DayFromYear y' -> y < y'.
Proof.
  intros H. destruct (Z_lt_le_dec y y') as [|Hle]; [assumption|].
  apply DayFromYear_mono in Hle. lia.
Qed.

(** The year of a day is the year whose days contain it. *)
Lemma YearFromDay_bracket d :
  DayFromYear (YearFromDay d) <= d < DayFromYear (YearFromDay d + 1).
Proof.
  unfold YearFromDay.
  set (y := 1970 + (400 * d) / 146097).
  pose proof (DayFromYear_mean (y - 1)) as Hm1.
  pose proof (DayFromYear_mean (y + 2)) as Hp2.
  assert (Hq : 146097 * (y - 1970) <= 400 * d < 146097 * (y - 1970) + 146097).
  { unfold y. pose proof (Z.mul_div_le (400 * d) 146097 ltac:(lia)).
    pose proof (Z.mul_succ_div_gt (400 * d) 146097 ltac:(lia)). lia. }
  destruct (DayFromYear (y + 1) <=? d) eqn:E1.
  - apply Z.leb_le in E1. replace (y + 1 + 1) with (y + 2) by lia. lia.
  - apply Z.leb_gt in E1.
    destruct (d <? DayFromYear y) eqn:E2.
    + apply Z.ltb_lt in E2. replace (y - 1 + 1) with y by lia. lia.
    + apply Z.ltb_ge in E2. lia.
Qed.

Lemma YearFromDay_largest d y : DayFromYear y <= d -> y <= YearFromDay d.
Proof.
  intros H. pose proof (YearFromDay_bracket d) as [_ Hb].
  assert (DayFromYear y < DayFromYear (YearFromDay d + 1)) as Hlt by lia.
  apply DayFromYear_lt_inv in Hlt. lia.
Qed.

Lemma YearFromDay_unique d y :
  DayFromYear y <= d < DayFromYear (y + 1) -> YearFromDay d = y.
Proof.
  intros [H1 H2]. pose proof (YearFromDay_bracket d) as [Hb1 Hb2].
  pose proof (YearFromDay_largest d y H1).
  assert (DayFromYear (YearFromDay d) < DayFromYear (y + 1)) as Hlt by lia.
  apply DayFromYear_lt_inv in Hlt. lia.
Qed.

Lemma DayWithinYear_range t :
  0 <= DayWithinYear t < 365 + InLeapYear t.
Proof.
  unfold DayWithinYear, InLeapYear, YearFromTime.
  pose proof (YearFromDay_bracket (Day t)) as Hb.
  rewrite DayFromYear_succ in Hb. unfold DaysInYear in Hb.
  destruct (isLeap (YearFromDay (Day t))); lia.
Qed.

Lemma InLeapYear_cases t : InLeapYear t = 0 \/ InLeapYear t = 1.
Proof. unfold InLeapYear. destruct (isLeap _); auto. Qed.

Lemma MonthFromTime_range t : 0 <= MonthFromTime t <= 11.
Proof.
  unfold MonthFromTime, MonthFromDayWithinYear.
  repeat match goal with |- context [if ?b then _ else _] => destruct b end; lia.
Qed.

(** The day of the month lies within the month. *)
Lemma DateFromTime_range t :
  1 <= DateFromTime t <= DaysInMonth (YearFromTime t) (MonthFromTime t).
Proof.
  pose proof (DayWithinYear_range t) as Hd.
  unfold DaysInMonth, DateFromTime, MonthFromTime.
  change (if isLeap (YearFromTime t) then 1 else 0) with (InLeapYear t).
  destruct (InLeapYear_cases t) as [E|E]; rewrite E in *;
    unfold MonthFromDayWithinYear;
    repeat match goal with
           | |- context [?a <? ?b] => destruct (Z.ltb_spec a b)
           end; cbn; lia.
Qed.

Lemma HourFromTime_range t : 0 <= HourFromTime t <= 23.
Proof. unfold HourFromTime, msPerHour; zdiv. Qed.
Lemma MinFromTime_range t : 0 <= MinFromTime t <= 59.
Proof. unfold MinFromTime, msPerMinute; zdiv. Qed.
Lemma SecFromTime_range t : 0 <= SecFromTime t <= 59.
Proof. unfold SecFromTime, msPerSecond; zdiv. Qed.
Lemma msFromTime_range t : 0 <= msFromTime t <= 999.
Proof. unfold msFromTime, msPerSecond; zdiv. Qed.

Lemma MakeDay_fields t :
  MakeDay (YearFromTime t) (MonthFromTime t) (DateFromTime t) = Day t.
Proof.
  unfold MakeDay, DateFromTime, DayWithinYear.
  change (if isLeap (YearFromTime t) then 1 else 0) with (InLeapYear t). lia.
Qed.

Lemma MakeTime_fields t :
  MakeTime (HourFromTime t) (MinFromTime t) (SecFromTime t) (msFromTime t)
  = TimeWithinDay t.
Proof.
  unfold MakeTime, HourFromTime, MinFromTime, SecFromTime, msFromTime,
    TimeWithinDay, msPerHour, msPerMinute, msPerSecond, msPerDay.
  zdiv.
Qed.

(** The calendar and clock fields of a time value denote that time value. *)
Lemma MakeDate_fields t :
  MakeDate (MakeDay (YearFromTime t) (MonthFromTime t) (DateFromTime t))
           (MakeTime (HourFromTime t) (MinFromTime t) (SecFromTime t)
                     (msFromTime t)) = t.
Proof.
  rewrite MakeDay_fields, MakeTime_fields.
  unfold MakeDate, Day, TimeWithinDay, msPerDay. zdiv.
Qed.

End TimeFacts.

(** ** Facts about the built-ins *)

Module JSFacts.

Lemma below_spec n f :
  below n f = true -> forall z, 0 <= z < n -> f z = true.
Proof.
  unfold below. rewrite forallb_forall. intros H z Hz.
  apply H. apply in_map_iff. exists (Z.to_nat z). split; [lia|].
  apply in_seq. lia.
Qed.

Lemma pad2 n : 0 <= n < 100 -> padStart 2 "0" (ToString_Z n) = fixed 2 n.
Proof.
  intros H. apply String.eqb_eq.
  apply (below_spec 100
           (fun z => String.eqb (padStart 2 "0" (ToString_Z z)) (fixed 2 z)));
    [vm_compute; reflexivity | lia].
Qed.

Lemma pad3 n : 0 <= n < 1000 -> padStart 3 "0" (ToString_Z n) = fixed 3 n.
Proof.
  intros H. apply String.eqb_eq.
  apply (below_spec 1000
           (fun z => String.eqb (padStart 3 "0" (ToString_Z z)) (fixed 3 z)));
    [vm_compute; reflexivity | lia].
Qed.

(** A year of four digits is written as it is. *)
Lemma year4 y : 1000 <= y <= 9999 -> ToString_Z y = fixed 4 y.
Proof.
  intros H.
  assert (((y <? 1000) || String.eqb (ToString_Z y) (fixed 4 y)) = true) as E.
  { apply (below_spec 10000
             (fun z => (z <? 1000) || String.eqb (ToString_Z z) (fixed 4 z)));
      [vm_compute; reflexivity | lia]. }
  apply orb_true_iff in E. destruct E as [E|E].
  - apply Z.ltb_lt in E. lia.
  - now apply String.eqb_eq.
Qed.

Lemma digit_val_char d : 0 <= d <= 9 -> digit_val (digit_char d) = Some d.
Proof.
  intros H.
  assert (d = 0 \/ d = 1 \/ d = 2 \/ d = 3 \/ d = 4 \/ d = 5 \/ d = 6
          \/ d = 7 \/ d = 8 \/ d = 9) as C by lia.
  repeat (destruct C as [C|C]; [subst d; reflexivity|]). subst d; reflexivity.
Qed.

Lemma read_digits_app k n acc rest :
  0 <= n ->
  read_digits k acc (fixed k n ++ rest)
  = Some (acc * 10 ^ Z.of_nat k + n mod 10 ^ Z.of_nat k, rest).
Proof.
  intros Hn. revert acc. induction k as [|k IH]; intros acc.
  - cbn [fixed read_digits append]. change (10 ^ Z.of_nat 0) with 1.
    rewrite Z.mod_1_r. do 2 f_equal. lia.
  - cbn [fixed read_digits append].
    rewrite digit_val_char by zdiv.
    rewrite IH. do 2 f_equal.
    rewrite Nat2Z.inj_succ, Z.pow_succ_r by lia.
    set (p := 10 ^ Z.of_nat k).
    assert (0 < p) by (apply Z.pow_pos_nonneg; lia).
    rewrite (Z.mul_comm 10 p), Z.rem_mul_r by lia. lia.
Qed.

Lemma read_digits_fixed k n rest :
  0 <= n < 10 ^ Z.of_nat k ->
  read_digits k 0 (fixed k n ++ rest) = Some (n, rest).
Proof.
  intros H. rewrite read_digits_app by lia.
  rewrite Z.mod_small by lia. reflexivity.
Qed.

Lemma expect_app c rest : expect c (String c EmptyString ++ rest) = Some rest.
Proof. cbn [append expect]. now rewrite Ascii.eqb_refl. Qed.

Lemma is_digit_char d : 0 <= d <= 9 -> is_digit (digit_char d) = true.
Proof. intros H. unfold is_digit. now rewrite digit_val_char. Qed.

(** A digit is none of the separators and signs of the format. *)
Lemma digit_not_mark c :
  is_digit c = true ->
  Ascii.eqb c "+" = false /\ Ascii.eqb c "-" = false.
Proof.
  intros H. split.
  - destruct (Ascii.eqb_spec c "+") as [->|]; [discriminate H|reflexivity].
  - destruct (Ascii.eqb_spec c "-") as [->|]; [discriminate H|reflexivity].
Qed.

Lemma read_year_fixed y rest :
  0 <= y < 10000 -> read_year (fixed 4 y ++ rest) = Some (y, rest).
Proof.
  intros H. unfold read_year.
  destruct (append (fixed 4 y) rest) as [|c r] eqn:E; [discriminate E|].
  assert (is_digit c = true) as Hc.
  { cbn [fixed append] in E. injection E as <- _. apply is_digit_char. zdiv. }
  destruct (digit_not_mark c Hc) as [-> ->].
  rewrite <- E. apply read_digits_fixed. cbn. lia.
Qed.

Lemma read_part_app sep default n rest :
  0 <= n < 100 ->
  read_part sep default (String sep EmptyString ++ fixed 2 n ++ rest)
  = Some (n, rest).
Proof.
  intros H. cbn [append read_part]. rewrite Ascii.eqb_refl.
  apply read_digits_fixed. cbn. lia.
Qed.

Lemma read_time_zone_app rest :
  read_time_zone ("T" ++ rest)
  = let? (h, mi, sec, ms, s) := read_time rest in
    let? off := read_zone s in
    Some (h, mi, sec, ms, off).
Proof. reflexivity. Qed.

Lemma read_time_app h mi sec ms rest :
  0 <= h < 100 -> 0 <= mi < 100 -> 0 <= sec < 100 -> 0 <= ms < 1000 ->
  read_time (fixed 2 h ++ ":" ++ fixed 2 mi ++ ":" ++ fixed 2 sec ++ "."
               ++ fixed 3 ms ++ rest)
  = Some (h, mi, sec, ms, rest).
Proof.
  intros Hh Hmi Hsec Hms. unfold read_time.
  rewrite read_digits_fixed by (cbn; lia). cbv beta iota.
  rewrite expect_app.
  rewrite read_digits_fixed by (cbn; lia). cbv beta iota.
  cbn [append Ascii.eqb Bool.eqb].
  rewrite read_digits_fixed by (cbn; lia). cbv beta iota.
  rewrite read_digits_fixed by (cbn; lia). reflexivity.
Qed.

End JSFacts.

Import TimeFacts JSFacts.

(** ** Rendering: what [toISOWithOffset] writes *)

Module RenderFacts.

(** A time value whose year has four digits is well inside the range
    of [Date]. *)
Lemma four_digit_year_time t :
  1000 <= YearFromTime t <= 9999 ->
  -30610224000000 <= t < 253402300800000.
Proof.
  intros [Hlo Hhi]. unfold YearFromTime in *.
  pose proof (YearFromDay_bracket (Day t)) as [Hb1 Hb2].
  pose proof (DayFromYear_mono 1000 _ Hlo) as H1.
  pose proof (DayFromYear_mono (YearFromDay (Day t) + 1) 10000 ltac:(lia)) as H2.
  change (DayFromYear 1000) with (-354285) in H1.
  change (DayFromYear 10000) with 2932897 in H2.
  unfold Day, msPerDay in *. zdiv.
Qed.

Lemma DaysInMonth_le t :
  DaysInMonth (YearFromTime t) (MonthFromTime t) <= 31.
Proof.
  pose proof (MonthFromTime_range t).
  unfold DaysInMonth. destruct (isLeap _);
    assert (MonthFromTime t = 0 \/ MonthFromTime t = 1 \/ MonthFromTime t = 2
            \/ MonthFromTime t = 3 \/ MonthFromTime t = 4 \/ MonthFromTime t = 5
            \/ MonthFromTime t = 6 \/ MonthFromTime t = 7 \/ MonthFromTime t = 8
            \/ MonthFromTime t = 9 \/ MonthFromTime t = 10 \/ MonthFromTime t = 11)
      as C by lia;
    repeat (destruct C as [C|C]; [rewrite C; cbn; lia|]); rewrite C; cbn; lia.
Qed.

Lemma toISOWithOffset_render date offsetMinutes t :
  getTime date = Some t ->
  1000 <= YearFromTime (t + offsetMinutes * 60 * 1000) <= 9999 ->
  Z.abs offsetMinutes <= 5999 ->
  toISOWithOffset date offsetMinutes
  = renderISO (t + offsetMinutes * 60 * 1000) offsetMinutes.
Proof.
  intros Ht Hy Ho.
  set (l := t + offsetMinutes * 60 * 1000) in *.
  pose proof (four_digit_year_time l Hy) as Hl.
  unfold toISOWithOffset, renderISO. cbv zeta. rewrite Ht.
  cbn [add]. unfold Date_of_number. fold l.
  assert (TimeClip l = Some l) as ->.
  { unfold TimeClip, maxTime. destruct (Z.leb_spec (Z.abs l) 8640000000000000); [reflexivity|lia]. }
  unfold getUTCFullYear, getUTCMonth, getUTCDate, getUTCHours, getUTCMinutes,
    getUTCSeconds, getUTCMilliseconds.
  cbn [getTime option_map add ToString].
  pose proof (MonthFromTime_range l). pose proof (DateFromTime_range l) as Hd.
  pose proof (HourFromTime_range l). pose proof (MinFromTime_range l).
  pose proof (SecFromTime_range l). pose proof (msFromTime_range l).
  assert (DaysInMonth (YearFromTime l) (MonthFromTime l) <= 31) as Hdm
    by apply DaysInMonth_le.
  rewrite year4 by lia.
  rewrite !pad2 by lia. rewrite pad3 by lia.
  rewrite Z.rem_mod_nonneg by lia.
  rewrite !pad2 by zdiv.
  replace (offsetMinutes >=? 0) with (0 <=? offsetMinutes)
    by (rewrite Z.geb_leb; reflexivity).
  reflexivity.
Qed.

Lemma fixed_digit n : is_digit (digit_char (n mod 10)) = true.
Proof. apply is_digit_char. zdiv. Qed.

(** The rendering has the shape of the format whatever the fields. *)
Lemma renderISO_shape localTime offsetMinutes :
  iso_shape (renderISO localTime offsetMinutes) = true.
Proof.
  unfold iso_shape, renderISO.
  destruct (0 <=? offsetMinutes);
    cbn [fixed append matches Ascii.eqb Bool.eqb];
    rewrite !fixed_digit; reflexivity.
Qed.

Lemma renderISO_length localTime offsetMinutes :
  String.length (renderISO localTime offsetMinutes) = 29%nat.
Proof.
  unfold renderISO. destruct (0 <=? offsetMinutes); reflexivity.
Qed.

(** Reading the rendering back: the fields denote the shifted time
    value, and the suffix undoes the shift. *)
Lemma Date_parse_render localTime offsetMinutes :
  0 <= YearFromTime localTime <= 9999 ->
  Z.abs offsetMinutes <= 1439 ->
  Date_parse (renderISO localTime offsetMinutes)
  = TimeClip (localTime - offsetMinutes * msPerMinute).
Proof.
  intros Hy Ho. set (l := localTime) in *.
  pose proof (MonthFromTime_range l). pose proof (DateFromTime_range l) as Hd.
  pose proof (HourFromTime_range l). pose proof (MinFromTime_range l).
  pose proof (SecFromTime_range l). pose proof (msFromTime_range l).
  assert (DaysInMonth (YearFromTime l) (MonthFromTime l) <= 31) as Hdm
    by apply DaysInMonth_le.
  assert (read_offset ((if (0 <=? offsetMinutes)%Z then "+" else "-")
                         ++ fixed 2 (Z.abs offsetMinutes / 60)%Z ++ ":"
                         ++ fixed 2 (Z.abs offsetMinutes mod 60)%Z)%string
          = Some offsetMinutes) as Hoff.
  { unfold read_offset.
    destruct (Z.leb_spec 0 offsetMinutes);
      cbn [append Ascii.eqb Bool.eqb];
      rewrite read_digits_fixed by (cbn; zdiv); cbv beta iota;
      cbn [expect Ascii.eqb Bool.eqb];
      replace (fixed 2 (Z.abs offsetMinutes mod 60))
        with (fixed 2 (Z.abs offsetMinutes mod 60)%Z ++ "")%string
        by (cbn [fixed append]; reflexivity);
      rewrite read_digits_fixed by (cbn; zdiv); cbv beta iota;
      (replace (Z.abs offsetMinutes / 60 <=? 23) with true
        by (symmetry; apply Z.leb_le; zdiv));
      (replace (Z.abs offsetMinutes mod 60 <=? 59) with true
        by (symmetry; apply Z.leb_le; zdiv));
      cbn [andb]; f_equal; zdiv. }
  assert (read_zone ((if (0 <=? offsetMinutes)%Z then "+" else "-")
                       ++ fixed 2 (Z.abs offsetMinutes / 60)%Z ++ ":"
                       ++ fixed 2 (Z.abs offsetMinutes mod 60)%Z)%string
          = Some offsetMinutes) as Hzone.
  { rewrite <- Hoff. destruct (0 <=? offsetMinutes); reflexivity. }
  unfold Date_parse, renderISO.
  rewrite read_year_fixed by lia. cbv beta iota.
  rewrite read_part_app by lia. cbv beta iota.
  rewrite read_part_app by lia. cbv beta iota.
  rewrite read_time_zone_app.
  rewrite read_time_app by lia. cbv beta iota.
  rewrite Hzone. cbv beta iota.
  replace (MonthFromTime l + 1 - 1) with (MonthFromTime l) by lia.
  rewrite MakeDate_fields.
  match goal with
  | |- (if ?c then _ else _) = _ => assert (c = true) as ->
  end.
  { rewrite !andb_true_iff, orb_true_iff, !Z.leb_le. lia. }
  reflexivity.
Qed.

End RenderFacts.

Import RenderFacts.

(** ** The projection of candidates, as values and as calls *)

Section Projection.

Variable Date_parse : string -> Number.
Variable chrono_parse :
  string -> Date -> Z -> bool -> Thrown + list Chrono.ParsedResult.

Lemma logged_nil w : logged w [] = w.
Proof. destruct w; unfold logged; cbn. now rewrite app_nil_r. Qed.

Lemma logged_app w e1 e2 : logged (logged w e1) e2 = logged w (e1 ++ e2).
Proof. unfold logged; cbn. now rewrite app_assoc. Qed.

Lemma convertParsedComponent_run c off w :
  convertParsedComponent c off w
  = (inr (projectComponent c off), logged w [EvDate c]).
Proof.
  unfold convertParsedComponent, projectComponent, bind, emit, ret, logged.
  destruct (extractComponents c); reflexivity.
Qed.

Lemma convertResult_run tz r w :
  convertResult tz r w = (inr (project tz r), logged w (projectEvents r)).
Proof.
  unfold convertResult, project, projectEvents, bind.
  rewrite convertParsedComponent_run.
  destruct (Chrono.end_ r) as [e|]; cbn [option_map].
  - rewrite convertParsedComponent_run, logged_app. reflexivity.
  - reflexivity.
Qed.

Lemma mapM_convertResult_run tz rs w :
  mapM (convertResult tz) rs w
  = (inr (map (project tz) rs), logged w (flat_map projectEvents rs)).
Proof.
  revert w. induction rs as [|r rs IH]; intros w.
  - cbn. now rewrite logged_nil.
  - cbn [mapM map flat_map]. unfold bind at 1. rewrite convertResult_run.
    unfold bind at 1. rewrite IH, logged_app. reflexivity.
Qed.

Lemma valid_text s : s <> "" ->
  negb (truthy (Str s)) || negb (isString (Str s)) = false.
Proof.
  intros H. cbn. destruct (String.eqb_spec s ""); [contradiction|reflexivity].
Qed.

(** [parseDateTime] step by step: the validation, the reference, the
    call of chrono-node, the selection and the projection, with the
    calls each step makes. *)
Lemma parseDateTime_outcome input w :
  parseDateTime Date_parse chrono_parse input w
  = if negb (truthy (Input.text input)) || negb (isString (Input.text input))
    then (inl (ErrorObj "text is required and must be a string"), w)
    else
      match normalizeReference Date_parse (Input.reference input) w with
      | (inl e, w1) => (inl e, w1)
      | (inr refDate, w1) =>
          let s := asString (Input.text input) in
          let ev := EvParse s refDate (offsetOf input) (forwardOf input) in
          match chrono_parse s refDate (offsetOf input) (forwardOf input) with
          | inl e => (inl e, logged w1 [ev])
          | inr all =>
              (inr (match selected (Input.mode input) all with
                    | [] => {| results := [];
                               summary := "No date/time expressions found" |}
                    | sel => {| results := map (project (offsetOf input)) sel;
                                summary := makeSummary
                                             (map (project (offsetOf input)) sel) |}
                    end),
               logged w1 (ev :: flat_map projectEvents (selected (Input.mode input) all)))
          end
      end.
Proof.
  unfold parseDateTime.
  destruct (negb (truthy (Input.text input)) || negb (isString (Input.text input)));
    [reflexivity|].
  unfold bind at 1.
  destruct (normalizeReference Date_parse (Input.reference input) w)
    as [[e|refDate] w1]; [reflexivity|].
  fold (offsetOf input) (forwardOf input). cbv zeta.
  unfold bind at 1. unfold bind at 1. unfold emit at 1.
  destruct (chrono_parse (asString (Input.text input)) refDate (offsetOf input)
              (forwardOf input)) as [e|all]; cbn [lift ret throw].
  { reflexivity. }
  unfold slice_0_1. fold (selected (Input.mode input) all).
  destruct (selected (Input.mode input) all) as [|r sel] eqn:E.
  - cbn. reflexivity.
  - cbn [List.length Nat.eqb]. unfold bind.
    rewrite mapM_convertResult_run. unfold ret, logged. cbn.
    rewrite <- app_assoc. reflexivity.
Qed.

(** A request that passes validation, whose reference resolves and
    whose candidates chrono-node delivers: the response and the calls
    made. *)
Lemma parseDateTime_run input w s refDate w1 all :
  Input.text input = Str s -> s <> "" ->
  normalizeReference Date_parse (Input.reference input) w = (inr refDate, w1) ->
  chrono_parse s refDate (offsetOf input) (forwardOf input) = inr all ->
  parseDateTime Date_parse chrono_parse input w
  = (inr (match selected (Input.mode input) all with
          | [] => {| results := []; summary := "No date/time expressions found" |}
          | sel => {| results := map (project (offsetOf input)) sel;
                      summary := makeSummary (map (project (offsetOf input)) sel) |}
          end),
     logged w1 (EvParse s refDate (offsetOf input) (forwardOf input)
                  :: flat_map projectEvents (selected (Input.mode input) all))).
Proof.
  intros Ht Hs Hr Hc. rewrite parseDateTime_outcome.
  rewrite Ht, (valid_text s Hs), Hr. cbn [asString]. cbv zeta.
  rewrite Hc. reflexivity.
Qed.

End Projection.

(** ** The partition into certain and implied fields *)

Module ExtractFacts.

Lemma extract_loop c keys certain implied :
  fold_left
    (fun (acc : list string * list string) key =>
       let (certain, implied) := acc in
       if Chrono.isCertain c key then (certain ++ [key], implied)
       else
         match Chrono.get c key with
         | Some _ => (certain, implied ++ [key])
         | None => (certain, implied)
         end)
    keys (certain, implied)
  = (certain ++ filter (Chrono.isCertain c) keys,
     implied ++ filter (isImplied c) keys).
Proof.
  revert certain implied. induction keys as [|k keys IH]; intros certain implied.
  - cbn. now rewrite !app_nil_r.
  - cbn [fold_left filter].
    destruct (Chrono.isCertain c k) eqn:E1.
    + assert (isImplied c k = false) as ->
        by (unfold isImplied; rewrite E1; reflexivity).
      rewrite IH, <- app_assoc. reflexivity.
    + destruct (Chrono.get c k) eqn:E2.
      * assert (isImplied c k = true) as ->
          by (unfold isImplied; rewrite E1, E2; reflexivity).
        rewrite IH, <- app_assoc. reflexivity.
      * assert (isImplied c k = false) as ->
          by (unfold isImplied; rewrite E1, E2; reflexivity).
        rewrite IH. reflexivity.
Qed.

Lemma extractComponents_filter c :
  extractComponents c
  = (filter (Chrono.isCertain c) allKeys, filter (isImplied c) allKeys).
Proof. unfold extractComponents. now rewrite extract_loop. Qed.

Lemma allKeys_NoDup : NoDup allKeys.
Proof.
  unfold allKeys.
  repeat (constructor; [cbn; intros H; repeat (destruct H as [H|H]; [discriminate H|]); exact H|]).
  constructor.
Qed.

End ExtractFacts.

Section Claim_C4.

Import ExtractFacts.

(** C4. For a component set [c] of the grammar capability (a field marked
    explicit has a value), the [certain] and [implied] lists of the
    [ParsedDateTime] that [convertParsedComponent] returns are disjoint,
    hold names of the eight-field vocabulary only (year, month, day,
    hour, minute, second, millisecond, timezoneOffset), list a field of
    the vocabulary as certain iff [c] marks it explicit and as implied
    iff it has a value and is not explicit, leave out a field without a
    value, and are the vocabulary in its fixed order restricted to the
    fields they hold. *)
Theorem C4_certain_implied_partition
  (c : Chrono.ParsedComponents) (outputOffset : Z) (w : World)
  (Hc : explicitHasValue c) :
  exists p w',
    convertParsedComponent c outputOffset w = (inr p, w')
    /\ let vocabulary :=
      ["year"; "month"; "day"; "hour"; "minute"; "second"; "millisecond";
       "timezoneOffset"] in
    (forall key, In key (certain p) -> ~ In key (implied p))
    /\ incl (certain p) vocabulary
    /\ incl (implied p) vocabulary
    /\ (forall key, In key vocabulary ->
          (In key (certain p) <-> Chrono.isCertain c key = true))
    /\ (forall key, In key vocabulary ->
          (In key (implied p)
           <-> Chrono.get c key <> None /\ Chrono.isCertain c key = false))
    /\ (forall key, Chrono.get c key = None ->
          ~ In key (certain p) /\ ~ In key (implied p))
    /\ certain p = filter (fun key => if in_dec string_dec key (certain p)
                                      then true else false) vocabulary
    /\ implied p = filter (fun key => if in_dec string_dec key (implied p)
                                      then true else false) vocabulary.
Proof.
  rewrite convertParsedComponent_run. eexists _, _. split; [reflexivity|].
  cbv zeta.
  change ["year"; "month"; "day"; "hour"; "minute"; "second"; "millisecond";
          "timezoneOffset"] with allKeys.
  unfold projectComponent. cbn [certain implied].
  rewrite extractComponents_filter. cbn [fst snd].
  assert (Himp : forall key, isImplied c key = true
                 <-> Chrono.get c key <> None /\ Chrono.isCertain c key = false).
  { intros key. unfold isImplied.
    destruct (Chrono.isCertain c key), (Chrono.get c key); cbn;
      split; try discriminate; try (intros [? ?]; congruence);
      intros _; split; congruence. }
  refine (conj _ (conj _ (conj _ (conj _ (conj _ (conj _ (conj _ _))))))).
  - intros key H1 H2. apply filter_In in H1, H2.
    destruct H1 as [_ H1], H2 as [_ H2]. apply Himp in H2.
    destruct H2 as [_ H2]. congruence.
  - intros key H. apply filter_In in H. tauto.
  - intros key H. apply filter_In in H. tauto.
  - intros key Hk. rewrite filter_In. tauto.
  - intros key Hk. rewrite filter_In, Himp. tauto.
  - intros key Hn. rewrite !filter_In, Himp. split.
    + intros [_ H]. apply Hc in H. contradiction.
    + tauto.
  - apply filter_ext_in. intros key Hk.
    destruct (in_dec string_dec key (filter (Chrono.isCertain c) allKeys)) as [Hi|Hn].
    + apply filter_In in Hi. tauto.
    + destruct (Chrono.isCertain c key) eqn:E; [|reflexivity].
      exfalso. apply Hn. apply filter_In. tauto.
  - apply filter_ext_in. intros key Hk.
    destruct (in_dec string_dec key (filter (isImplied c) allKeys)) as [Hi|Hn].
    + apply filter_In in Hi. tauto.
    + destruct (isImplied c key) eqn:E; [|reflexivity].
      exfalso. apply Hn. apply filter_In. tauto.
Qed.

End Claim_C4.

(** ** The reference instant *)

Module TrimFacts.

Lemma trimStart_blank s : blank s = true -> trimStart s = "".
Proof.
  induction s as [|c s IH]; [reflexivity|]. cbn.
  destruct (isWhiteSpace c); cbn; [assumption|discriminate].
Qed.

Lemma trimStart_not_blank s :
  blank s = false ->
  exists c rest, trimStart s = String c rest /\ isWhiteSpace c = false.
Proof.
  induction s as [|c s IH]; [discriminate|]. cbn.
  destruct (isWhiteSpace c) eqn:E; cbn.
  - assumption.
  - intros _. exists c, s. split; [reflexivity|assumption].
Qed.

Lemma trimEnd_keeps c rest : isWhiteSpace c = false -> trimEnd (String c rest) <> "".
Proof.
  intros H. cbn [trimEnd]. destruct (trimEnd rest); rewrite ?H; discriminate.
Qed.

(** [ref.trim() === ""] holds of the blank strings exactly. *)
Lemma trim_blank s : String.eqb (trim s) "" = blank s.
Proof.
  unfold trim. destruct (blank s) eqn:E.
  - rewrite trimStart_blank by assumption. reflexivity.
  - destruct (trimStart_not_blank s E) as (c & rest & -> & Hc).
    apply String.eqb_neq. now apply trimEnd_keeps.
Qed.

Lemma empty_blank s : String.eqb s "" || blank s = blank s.
Proof. destruct s; reflexivity. Qed.

End TrimFacts.

Section Claims_parser.

Variable Date_parse : string -> Number.
Variable chrono_parse :
  string -> Date -> Z -> bool -> Thrown + list Chrono.ParsedResult.

(** C8. [normalizeReference] answers the instant of the clock when the
    reference is absent or blank; for every other reference it answers
    the instant the string denotes when it denotes one, and throws the
    error "Invalid reference date: ..." when it does not.  The clock is
    read in the first case only. *)
Theorem C8_normalizeReference (ref : option string) (w : World) :
  normalizeReference Date_parse ref w
  = match ref with
    | None => (inr (mkDate (Some (clock w))), logged w [EvNow])
    | Some r =>
        if blank r then (inr (mkDate (Some (clock w))), logged w [EvNow])
        else
          match Date_parse r with
          | Some t => (inr (mkDate (Some t)), w)
          | None => (inl (ErrorObj ("Invalid reference date: " ++ r)), w)
          end
    end.
Proof.
  unfold normalizeReference. destruct ref as [r|]; [|reflexivity].
  rewrite TrimFacts.trim_blank, TrimFacts.empty_blank.
  destruct (blank r); [reflexivity|].
  cbn [getTime]. destruct (Date_parse r); reflexivity.
Qed.

(** C7. When [text] is absent, empty or not a string, [parseDateTime]
    throws the error "text is required and must be a string" and
    nothing else happens: the world is as before, so neither the clock
    nor chrono-node was called, and there is no response. *)
Theorem C7_invalid_text (input : Input.ChronoParseInput) (w : World)
  (Htext : Input.text input = Undefined
           \/ Input.text input = Str ""
           \/ isString (Input.text input) = false) :
  parseDateTime Date_parse chrono_parse input w
  = (inl (ErrorObj "text is required and must be a string"), w).
Proof.
  unfold parseDateTime.
  destruct Htext as [H|[H|H]]; rewrite H; try reflexivity.
  rewrite orb_true_r. reflexivity.
Qed.

Lemma not_all mode : mode <> Str "all" -> strictEqStr mode "all" = false.
Proof.
  intros H. destruct mode; try reflexivity. cbn.
  apply String.eqb_neq. congruence.
Qed.

(** C9. Whatever [mode] holds (nothing, a string outside the enum,
    a value that is no string), if it is not the string "all" the
    request is treated as the same request with [mode] "first": the two
    runs are equal, and when the request validates, its reference
    resolves and chrono-node returns the candidates [all], the results
    are the projection of the first candidate alone, at most one, the
    list being cut to [firstn 1 all] before anything is projected: only
    the component sets of the first candidate are resolved. *)
Theorem C9_mode_default (input : Input.ChronoParseInput) (w : World)
  (Hmode : Input.mode input <> Str "all") :
  parseDateTime Date_parse chrono_parse input w
  = parseDateTime Date_parse chrono_parse (withMode input (Str "first")) w
  /\ forall (s : string) (refDate : Date) (w1 : World)
            (all : list Chrono.ParsedResult),
      Input.text input = Str s -> s <> "" ->
      normalizeReference Date_parse (Input.reference input) w = (inr refDate, w1) ->
      chrono_parse s refDate (offsetOf input) (forwardOf input) = inr all ->
      exists out w',
        parseDateTime Date_parse chrono_parse input w = (inr out, w')
        /\ (List.length (results out) <= 1)%nat
        /\ results out
           = match all with
             | [] => []
             | first :: _ => [project (offsetOf input) first]
             end
        /\ results out = map (project (offsetOf input)) (firstn 1 all)
        /\ w' = logged w1 (EvParse s refDate (offsetOf input) (forwardOf input)
                             :: flat_map projectEvents (firstn 1 all)).
Proof.
  split.
  - unfold parseDateTime, withMode. cbn [Input.text Input.reference
      Input.timezone_offset Input.forwardOnly Input.mode].
    rewrite (not_all _ Hmode).
    change (strictEqStr (Str "first") "all") with false. reflexivity.
  - intros s refDate w1 all Htext Hs Href Hall.
    rewrite (parseDateTime_run _ _ input w s refDate w1 all Htext Hs Href Hall).
    eexists _, _. split; [reflexivity|].
    unfold selected. rewrite (not_all _ Hmode).
    destruct all as [|r rest]; cbn [firstn results map List.length];
      repeat split; lia.
Qed.

(** C5. For a valid request, with the candidates [all] of chrono-node:
    under mode "first" the results are the projection of the first
    candidate alone, at most one, and only its component sets were
    resolved; under mode "all" the results are the projections of all
    the candidates in their order, as many as there are candidates. *)
Theorem C5_selection
  (input : Input.ChronoParseInput) (w : World) (s : string)
  (refDate : Date) (w1 : World) (all : list Chrono.ParsedResult)
  (Htext : Input.text input = Str s) (Hs : s <> "")
  (Href : normalizeReference Date_parse (Input.reference input) w = (inr refDate, w1))
  (Hall : chrono_parse s refDate (offsetOf input) (forwardOf input) = inr all) :
  exists out w',
    parseDateTime Date_parse chrono_parse input w = (inr out, w')
    /\ (Input.mode input = Str "first" ->
        (List.length (results out) <= 1)%nat
        /\ results out = map (project (offsetOf input)) (firstn 1 all)
        /\ w' = logged w1 (EvParse s refDate (offsetOf input) (forwardOf input)
                             :: flat_map projectEvents (firstn 1 all)))
    /\ (Input.mode input = Str "all" ->
        List.length (results out) = List.length all
        /\ results out = map (project (offsetOf input)) all
        /\ w' = logged w1 (EvParse s refDate (offsetOf input) (forwardOf input)
                             :: flat_map projectEvents all)).
Proof.
  rewrite (parseDateTime_run _ _ input w s refDate w1 all Htext Hs Href Hall).
  eexists _, _. split; [reflexivity|].
  split; intros Hm; unfold selected; rewrite Hm;
    cbn [strictEqStr String.eqb Ascii.eqb Bool.eqb];
    destruct all as [|r rest]; cbn [firstn results map List.length];
    repeat split; try lia.
  now rewrite length_map.
Qed.

(** C6. A valid request gets a response, not an error; its summary is
    [summarySpec] of its results: the fixed sentence for no result (the
    response is then exactly the empty result list with that sentence),
    "Parsed: " and the start for one result that is not a range, "Parsed
    range: " with start and end for one range, and the count for more
    than one.  A result is a range iff it has an end. *)
Theorem C6_summary
  (input : Input.ChronoParseInput) (w : World) (s : string)
  (refDate : Date) (w1 : World) (all : list Chrono.ParsedResult)
  (Htext : Input.text input = Str s) (Hs : s <> "")
  (Href : normalizeReference Date_parse (Input.reference input) w = (inr refDate, w1))
  (Hall : chrono_parse s refDate (offsetOf input) (forwardOf input) = inr all) :
  exists out w',
    parseDateTime Date_parse chrono_parse input w = (inr out, w')
    /\ summary out = summarySpec (results out)
    /\ (results out = [] ->
        out = {| results := []; summary := "No date/time expressions found" |})
    /\ Forall (fun r => isRange r = true <-> end_ r <> None) (results out).
Proof.
  rewrite (parseDateTime_run _ _ input w s refDate w1 all Htext Hs Href Hall).
  eexists _, _. split; [reflexivity|].
  destruct (selected (Input.mode input) all) as [|r sel].
  - cbn. repeat split; constructor.
  - cbn [results summary]. split; [|split].
    + unfold makeSummary, summarySpec.
      destruct sel as [|r' sel]; cbn [map List.length Nat.eqb].
      * unfold project. cbn [isRange end_ start].
        destruct (Chrono.end_ r); reflexivity.
      * reflexivity.
    + discriminate.
    + apply Forall_forall. intros x Hx. apply in_map_iff in Hx.
      destruct Hx as (c & <- & _). unfold project. cbn [isRange end_].
      destruct (Chrono.end_ c); cbn; split; congruence.
Qed.

End Claims_parser.


Section Claim_C1.

Variable Date_parse : string -> Number.
Variable chrono_parse :
  string -> Date -> Z -> bool -> Thrown + list Chrono.ParsedResult.

Lemma project_withoutIso tz1 tz2 r :
  resultWithoutIso (project tz1 r) = resultWithoutIso (project tz2 r).
Proof.
  unfold resultWithoutIso, project, withoutIso, projectComponent.
  cbn [text isRange start end_ unix timezoneOffset certain implied].
  destruct (Chrono.end_ r); reflexivity.
Qed.

(** C1, as the code has it.  Two requests that differ in
    [timezone_offset] only, run in the same world, for which chrono-node
    returns the same candidates under both reference time zones: both
    fail with the same error, or both answer, and the two result lists
    agree in everything but the [iso] renderings: the [unix] values,
    the detected [timezoneOffset], the field lists, the matched text and
    the range flag are equal pairwise. *)
Theorem C1_offset_changes_iso_only
  (input : Input.ChronoParseInput) (offset1 offset2 : option Z) (w : World)
  (Hsame : forall instant,
      chrono_parse (asString (Input.text input)) instant
                   (offsetOrZero offset1) (forwardOf input)
      = chrono_parse (asString (Input.text input)) instant
                     (offsetOrZero offset2) (forwardOf input)) :
  match parseDateTime Date_parse chrono_parse (withOffset input offset1) w,
        parseDateTime Date_parse chrono_parse (withOffset input offset2) w with
  | (inr out1, _), (inr out2, _) =>
      map resultWithoutIso (results out1) = map resultWithoutIso (results out2)
      /\ unixValues out1 = unixValues out2
  | (inl e1, w1), (inl e2, w2) => e1 = e2
  | _, _ => False
  end.
Proof.
  rewrite !parseDateTime_outcome. unfold withOffset.
  cbn [Input.text Input.reference Input.timezone_offset Input.forwardOnly Input.mode].
  destruct (negb (truthy (Input.text input)) || negb (isString (Input.text input))).
  { reflexivity. }
  destruct (normalizeReference Date_parse (Input.reference input) w)
    as [[e|refDate] w1]; [reflexivity|].
  unfold offsetOf, forwardOf.
  cbn [Input.text Input.reference Input.timezone_offset Input.forwardOnly Input.mode].
  fold (offsetOrZero offset1) (offsetOrZero offset2) (forwardOf input).
  rewrite (Hsame refDate).
  destruct (chrono_parse (asString (Input.text input)) refDate
              (offsetOrZero offset2) (forwardOf input)) as [e|all];
    [reflexivity|].
  destruct (selected (Input.mode input) all) as [|r sel].
  - split; reflexivity.
  - cbn [results].
    assert (map resultWithoutIso (map (project (offsetOrZero offset1)) (r :: sel))
            = map resultWithoutIso (map (project (offsetOrZero offset2)) (r :: sel)))
      as Heq.
    { rewrite !map_map. apply map_ext. intros a. apply project_withoutIso. }
    split; [exact Heq|].
    unfold unixValues. cbn [results].
    rewrite !map_map. apply map_ext. intros a.
    unfold project, projectComponent.
    cbn [text isRange start end_ unix timezoneOffset certain implied].
    destruct (Chrono.end_ a); reflexivity.
Qed.

End Claim_C1.

(** C1, as the specification states it, fails: [parseDateTime] hands
    [timezone_offset] to chrono-node as the time zone of the reference,
    and a capability that reads "5pm" in that zone resolves it to
    17:00 UTC under offset 0 and to 08:00 UTC under offset 540. *)
Lemma C1_counterexample :
  let run offset :=
    fst (parseDateTime ISO.Date_parse Sample.wallClockParse
           (withOffset (Sample.request (Str "5pm") None Undefined) (Some offset))
           Sample.world0) in
  match run 0, run 540 with
  | inr out1, inr out2 =>
      unixValues out1 = [(Some 61200000, None)]
      /\ unixValues out2 = [(Some 28800000, None)]
      /\ unixValues out1 <> unixValues out2
  | _, _ => False
  end.
Proof. vm_compute. repeat split; discriminate. Qed.

Lemma C1_witness :
  match parseDateTime ISO.Date_parse Sample.twoMatches
          (withOffset (Sample.request (Str "x") None (Str "all")) (Some 0))
          Sample.world0,
        parseDateTime ISO.Date_parse Sample.twoMatches
          (withOffset (Sample.request (Str "x") None (Str "all")) (Some 330))
          Sample.world0 with
  | (inr out1, _), (inr out2, _) =>
      map resultWithoutIso (results out1) = map resultWithoutIso (results out2)
      /\ unixValues out1 = unixValues out2
  | (inl e1, w1), (inl e2, w2) => e1 = e2
  | _, _ => False
  end.
Proof.
  apply (C1_offset_changes_iso_only ISO.Date_parse Sample.twoMatches
           (Sample.request (Str "x") None (Str "all")) (Some 0) (Some 330)
           Sample.world0).
  intros instant. reflexivity.
Defined.

Lemma march15_explicitHasValue : explicitHasValue Sample.march15.
Proof.
  intros key H. cbn in H |- *.
  destruct (String.eqb key "year"); [discriminate|].
  destruct (String.eqb key "month"); [discriminate|].
  destruct (String.eqb key "day"); [discriminate|].
  discriminate H.
Defined.

Lemma C4_witness :
  exists p w',
    convertParsedComponent Sample.march15 0 Sample.world0 = (inr p, w')
    /\ let vocabulary :=
      ["year"; "month"; "day"; "hour"; "minute"; "second"; "millisecond";
       "timezoneOffset"] in
    (forall key, In key (certain p) -> ~ In key (implied p))
    /\ incl (certain p) vocabulary
    /\ incl (implied p) vocabulary
    /\ (forall key, In key vocabulary ->
          (In key (certain p) <-> Chrono.isCertain Sample.march15 key = true))
    /\ (forall key, In key vocabulary ->
          (In key (implied p)
           <-> Chrono.get Sample.march15 key <> None
               /\ Chrono.isCertain Sample.march15 key = false))
    /\ (forall key, Chrono.get Sample.march15 key = None ->
          ~ In key (certain p) /\ ~ In key (implied p))
    /\ certain p = filter (fun key => if in_dec string_dec key (certain p)
                                      then true else false) vocabulary
    /\ implied p = filter (fun key => if in_dec string_dec key (implied p)
                                      then true else false) vocabulary.
Proof.
  apply (C4_certain_implied_partition Sample.march15 0 Sample.world0).
  exact march15_explicitHasValue.
Defined.

(** The scenario "March 15" of the specification. *)
Example march15_fields :
  extractComponents Sample.march15
  = (["month"; "day"], ["year"; "hour"; "minute"; "second"; "millisecond"]).
Proof. reflexivity. Qed.

Lemma C5_witness :
  exists out w',
    parseDateTime ISO.Date_parse Sample.twoMatches
      (Sample.request (Str "x") (Some 330) (Str "first")) Sample.world0
    = (inr out, w')
    /\ (Str "first" = Str "first" ->
        (List.length (results out) <= 1)%nat
        /\ results out = map (project 330)
             (firstn 1 [Chrono.mkResult "March 15" Sample.march15 None;
                        Chrono.mkResult "5pm to 5pm" (Sample.fivePm 0)
                          (Some (Sample.fivePm (-60)))])
        /\ w' = logged Sample.world0
                  (EvParse "x" sampleRef 330 true
                     :: flat_map projectEvents
                          (firstn 1 [Chrono.mkResult "March 15" Sample.march15 None;
                                     Chrono.mkResult "5pm to 5pm" (Sample.fivePm 0)
                                       (Some (Sample.fivePm (-60)))])))
    /\ (Str "first" = Str "all" ->
        List.length (results out) = 2%nat
        /\ results out = map (project 330)
             [Chrono.mkResult "March 15" Sample.march15 None;
              Chrono.mkResult "5pm to 5pm" (Sample.fivePm 0)
                (Some (Sample.fivePm (-60)))]
        /\ w' = logged Sample.world0
                  (EvParse "x" sampleRef 330 true
                     :: flat_map projectEvents
                          [Chrono.mkResult "March 15" Sample.march15 None;
                           Chrono.mkResult "5pm to 5pm" (Sample.fivePm 0)
                             (Some (Sample.fivePm (-60)))])).
Proof.
  apply (C5_selection ISO.Date_parse Sample.twoMatches
           (Sample.request (Str "x") (Some 330) (Str "first")) Sample.world0
           "x" sampleRef Sample.world0).
  - reflexivity.
  - discriminate.
  - vm_compute. reflexivity.
  - reflexivity.
Defined.

Lemma C6_witness :
  exists out w',
    parseDateTime ISO.Date_parse Sample.twoMatches
      (Sample.request (Str "x") (Some 330) (Str "all")) Sample.world0
    = (inr out, w')
    /\ summary out = summarySpec (results out)
    /\ (results out = [] ->
        out = {| results := []; summary := "No date/time expressions found" |})
    /\ Forall (fun r => isRange r = true <-> end_ r <> None) (results out).
Proof.
  apply (C6_summary ISO.Date_parse Sample.twoMatches
           (Sample.request (Str "x") (Some 330) (Str "all")) Sample.world0
           "x" sampleRef Sample.world0
           [Chrono.mkResult "March 15" Sample.march15 None;
            Chrono.mkResult "5pm to 5pm" (Sample.fivePm 0)
              (Some (Sample.fivePm (-60)))]).
  - reflexivity.
  - discriminate.
  - vm_compute. reflexivity.
  - reflexivity.
Defined.

(** The four summaries on sample requests. *)
Example summary_none :
  fst (parseDateTime ISO.Date_parse Sample.noMatch
         (Sample.request (Str "xyz abc qwerty") None Undefined) Sample.world0)
  = inr {| results := []; summary := "No date/time expressions found" |}.
Proof. reflexivity. Qed.

Example summary_one :
  match fst (parseDateTime ISO.Date_parse Sample.twoMatches
               (Sample.request (Str "x") (Some 330) Undefined) Sample.world0) with
  | inr out => summary out = "Parsed: 2025-03-15T17:30:00.000+05:30"
  | inl _ => False
  end.
Proof. vm_compute. reflexivity. Qed.

Example summary_two :
  match fst (parseDateTime ISO.Date_parse Sample.twoMatches
               (Sample.request (Str "x") (Some 330) (Str "all")) Sample.world0) with
  | inr out => summary out = "Parsed 2 date/time expressions"
  | inl _ => False
  end.
Proof. vm_compute. reflexivity. Qed.

Lemma C7_witness :
  parseDateTime ISO.Date_parse Sample.twoMatches
    (Sample.request (Str "") (Some 0) (Str "all")) Sample.world0
  = (inl (ErrorObj "text is required and must be a string"), Sample.world0).
Proof.
  apply (C7_invalid_text ISO.Date_parse Sample.twoMatches).
  right; left; reflexivity.
Defined.

Lemma C9_witness :
  parseDateTime ISO.Date_parse Sample.twoMatches
    (Sample.request (Str "x") (Some 0) (Str "every")) Sample.world0
  = parseDateTime ISO.Date_parse Sample.twoMatches
      (withMode (Sample.request (Str "x") (Some 0) (Str "every")) (Str "first"))
      Sample.world0
  /\ exists out w',
      parseDateTime ISO.Date_parse Sample.twoMatches
        (Sample.request (Str "x") (Some 0) (Str "every")) Sample.world0
      = (inr out, w')
      /\ (List.length (results out) <= 1)%nat
      /\ results out = [project 0 (Chrono.mkResult "March 15" Sample.march15 None)]
      /\ results out
         = map (project 0)
             (firstn 1 [Chrono.mkResult "March 15" Sample.march15 None;
                        Chrono.mkResult "5pm to 5pm" (Sample.fivePm 0)
                          (Some (Sample.fivePm (-60)))])
      /\ w' = logged Sample.world0
                [EvParse "x" sampleRef 0 true; EvDate Sample.march15].
Proof.
  destruct (C9_mode_default ISO.Date_parse Sample.twoMatches
              (Sample.request (Str "x") (Some 0) (Str "every")) Sample.world0)
    as [Hsame Hcut].
  - discriminate.
  - split; [exact Hsame|].
    apply (Hcut "x" sampleRef Sample.world0
             [Chrono.mkResult "March 15" Sample.march15 None;
              Chrono.mkResult "5pm to 5pm" (Sample.fivePm 0)
                (Some (Sample.fivePm (-60)))]).
    + reflexivity.
    + discriminate.
    + vm_compute. reflexivity.
    + reflexivity.
Defined.

(** ** The round trip through the rendering *)

(** C2, as the code has it.  For a date with time value [t] and an
    offset below 24 hours in absolute value, such that the shifted time
    value lies in a year of four digits (1000 to 9999), the string that
    [toISOWithOffset] writes is a date-time string of the standard, and
    [Date.parse] reads it back to [t]. *)
Theorem C2_render_parse_roundtrip (date : Date) (offsetMinutes t : Z)
  (Ht : getTime date = Some t)
  (Hyear : 1000 <= YearFromTime (t + offsetMinutes * 60 * 1000) <= 9999)
  (Hoff : Z.abs offsetMinutes <= 1439) :
  ISO.Date_parse (toISOWithOffset date offsetMinutes) = getTime date.
Proof.
  rewrite (toISOWithOffset_render date offsetMinutes t Ht Hyear) by lia.
  rewrite Date_parse_render by lia.
  pose proof (four_digit_year_time _ Hyear) as Hl.
  rewrite Ht. unfold TimeClip, msPerMinute, maxTime.
  replace (t + offsetMinutes * 60 * 1000 - offsetMinutes * 60000) with t by lia.
  destruct (Z.leb_spec (Z.abs t) 8640000000000000); [reflexivity|lia].
Qed.

Lemma C2_witness :
  ISO.Date_parse (toISOWithOffset (mkDate (Some 1759654800123)) 570)
  = getTime (mkDate (Some 1759654800123)).
Proof.
  apply (C2_render_parse_roundtrip (mkDate (Some 1759654800123)) 570 1759654800123).
  - reflexivity.
  - vm_compute. split; discriminate.
  - vm_compute. discriminate.
Defined.

(** C2, as the specification states it, fails.  With the instant of the
    epoch and the offset 144000000001 (an integer, and no offset is
    refused) the shifted time value is beyond the range of [Date], every
    field reads [NaN], and the string is no date: parsing gives [NaN].
    The instant one millisecond later is rendered to the same string,
    so no way of parsing can give both instants back. *)
Lemma C2_counterexample :
  toISOWithOffset (mkDate (Some 0)) 144000000001
    = "NaN-NaN-NaNTNaN:NaN:NaN.NaN+2400000000:01"
  /\ ISO.Date_parse (toISOWithOffset (mkDate (Some 0)) 144000000001) = None
  /\ ISO.Date_parse (toISOWithOffset (mkDate (Some 0)) 144000000001)
     <> getTime (mkDate (Some 0))
  /\ toISOWithOffset (mkDate (Some 1)) 144000000001
     = toISOWithOffset (mkDate (Some 0)) 144000000001.
Proof. vm_compute. repeat split; discriminate. Qed.

(** No function from strings to instants undoes the rendering on all
    dates and all integer offsets. *)
Lemma toISOWithOffset_not_invertible :
  ~ exists parse : string -> Number,
      forall date offsetMinutes,
        parse (toISOWithOffset date offsetMinutes) = getTime date.
Proof.
  intros [parse H].
  pose proof (H (mkDate (Some 0)) 144000000001) as H0.
  pose proof (H (mkDate (Some 1)) 144000000001) as H1.
  assert (toISOWithOffset (mkDate (Some 1)) 144000000001
          = toISOWithOffset (mkDate (Some 0)) 144000000001) as E
    by (vm_compute; reflexivity).
  rewrite E, H0 in H1. discriminate H1.
Qed.

(** Two more strings that leave the format: a year below 1000 is
    written without padding, and an offset of 100 hours has three hour
    digits. *)
Example year_not_padded :
  toISOWithOffset (mkDate (Some (-30641760000000))) 0
  = "999-01-01T00:00:00.000+00:00".
Proof. vm_compute. reflexivity. Qed.

(** ** The shape of the rendering *)

(** C3, as the code has it.  For a date with time value [t] and an
    offset below 100 hours in absolute value, such that the shifted time
    value [t + offsetMinutes * 60000] lies in a year of four digits: the
    string is [renderISO] of the shifted time value, that is its UTC
    fields (which denote it: no zone rule enters) with four digits for
    the year, three for the milliseconds and two for every other field;
    it has the shape [YYYY-MM-DDTHH:MM:SS.mmm] followed by a sign and
    [HH:MM], 29 characters, so it never ends in [Z]; the sign is [+]
    iff the offset is zero or positive; the suffix holds the hours and
    the minutes of the offset, [+05:30] for 330 and [+09:30] for 570. *)
Theorem C3_iso_shape (date : Date) (offsetMinutes t : Z)
  (Ht : getTime date = Some t)
  (Hyear : 1000 <= YearFromTime (t + offsetMinutes * 60 * 1000) <= 9999)
  (Hoff : Z.abs offsetMinutes <= 5999) :
  let localTime := t + offsetMinutes * 60 * 1000 in
  let s := toISOWithOffset date offsetMinutes in
  s = renderISO localTime offsetMinutes
  /\ MakeDate (MakeDay (YearFromTime localTime) (MonthFromTime localTime)
                       (DateFromTime localTime))
              (MakeTime (HourFromTime localTime) (MinFromTime localTime)
                        (SecFromTime localTime) (msFromTime localTime))
     = localTime
  /\ iso_shape s = true
  /\ String.length s = 29%nat
  /\ String.get 23 s = Some (if 0 <=? offsetMinutes then "+"%char else "-"%char)
  /\ substring 24 5 s
     = append (fixed 2 (Z.abs offsetMinutes / 60))
              (append ":" (fixed 2 (Z.abs offsetMinutes mod 60)))
  /\ (offsetMinutes = 330 -> substring 23 6 s = "+05:30")
  /\ (offsetMinutes = 570 -> substring 23 6 s = "+09:30").
Proof.
  intros localTime s. subst s.
  rewrite (toISOWithOffset_render date offsetMinutes t Ht Hyear Hoff).
  fold localTime.
  split; [reflexivity|].
  split; [apply MakeDate_fields|].
  split; [apply renderISO_shape|].
  split; [apply renderISO_length|].
  unfold renderISO.
  split; [destruct (0 <=? offsetMinutes); reflexivity|].
  split; [destruct (0 <=? offsetMinutes); reflexivity|].
  split; intros ->; reflexivity.
Qed.

Lemma C3_witness :
  let localTime := 1759654800123 + 330 * 60 * 1000 in
  let s := toISOWithOffset (mkDate (Some 1759654800123)) 330 in
  s = renderISO localTime 330
  /\ MakeDate (MakeDay (YearFromTime localTime) (MonthFromTime localTime)
                       (DateFromTime localTime))
              (MakeTime (HourFromTime localTime) (MinFromTime localTime)
                        (SecFromTime localTime) (msFromTime localTime))
     = localTime
  /\ iso_shape s = true
  /\ String.length s = 29%nat
  /\ String.get 23 s = Some (if 0 <=? 330 then "+"%char else "-"%char)
  /\ substring 24 5 s
     = append (fixed 2 (Z.abs 330 / 60)) (append ":" (fixed 2 (Z.abs 330 mod 60)))
  /\ (330 = 330 -> substring 23 6 s = "+05:30")
  /\ (330 = 570 -> substring 23 6 s = "+09:30").
Proof.
  apply (C3_iso_shape (mkDate (Some 1759654800123)) 330 1759654800123).
  - reflexivity.
  - vm_compute. split; discriminate.
  - vm_compute. discriminate.
Defined.

(** C3, as the specification states it, fails: the hours of the offset
    are padded to two digits but not cut to two, so an offset of 100
    hours gives a suffix of seven characters. *)
Lemma C3_counterexample :
  toISOWithOffset (mkDate (Some 0)) 6000 = "1970-01-05T04:00:00.000+100:00"
  /\ iso_shape (toISOWithOffset (mkDate (Some 0)) 6000) = false.
Proof. vm_compute. split; reflexivity. Qed.

(** The renderings of the scenarios and of the offsets that the
    specification names. *)
Example iso_jst :
  toISOWithOffset (mkDate (Some 1759651200000)) 540
  = "2025-10-05T17:00:00.000+09:00".
Proof. vm_compute. reflexivity. Qed.

Example iso_est :
  toISOWithOffset (mkDate (Some 1759654800123)) (-300)
  = "2025-10-05T04:00:00.123-05:00".
Proof. vm_compute. reflexivity. Qed.

Example iso_ist :
  toISOWithOffset (mkDate (Some 0)) 330 = "1970-01-01T05:30:00.000+05:30".
Proof. vm_compute. reflexivity. Qed.

Example iso_acst :
  toISOWithOffset (mkDate (Some 0)) 570 = "1970-01-01T09:30:00.000+09:30".
Proof. vm_compute. reflexivity. Qed.

(** ** The error code of a failed tool call *)

Module IncludesFacts.

Lemma prefix_spec a s : prefix a s = true <-> exists b, s = (a ++ b)%string.
Proof.
  revert s. induction a as [|c a IH]; intros s.
  - split; [intros _; exists s; reflexivity | intros _; destruct s; reflexivity].
  - destruct s as [|c' s]; cbn.
    + split; [discriminate | intros [b H]; discriminate H].
    + destruct (Ascii.ascii_dec c c') as [->|Hne].
      * rewrite IH. split; intros [b H]; exists b; congruence.
      * split; [discriminate | intros [b H]; congruence].
Qed.

Lemma includes_cons c s sub :
  includes (String c s) sub = prefix sub (String c s) || includes s sub.
Proof.
  unfold includes. cbn [index].
  destruct (prefix sub (String c s)); [reflexivity|].
  destruct (index 0 sub s); reflexivity.
Qed.

(** [includes] holds iff the second string occurs in the first. *)
Lemma includes_spec s sub :
  includes s sub = true <-> exists a b, s = (a ++ sub ++ b)%string.
Proof.
  induction s as [|c s IH].
  - unfold includes. cbn. destruct sub as [|c' sub].
    + split; [intros _; exists "", ""; reflexivity | reflexivity].
    + split; [discriminate|]. intros (a & b & H).
      destruct a; discriminate H.
  - rewrite includes_cons, orb_true_iff, IH, prefix_spec. split.
    + intros [[b H]|(a & b & H)].
      * exists "", b. exact H.
      * exists (String c a), b. cbn. now rewrite H.
    + intros (a & b & H). destruct a as [|c' a].
      * left. exists b. exact H.
      * right. exists a, b. cbn in H. congruence.
Qed.

End IncludesFacts.

Section Claim_C10.

Import Handler.

(** C10. In a [tools/call] of [chrono_parse], whatever [parseDateTime]
    throws on the arguments of the call (the [arguments] object or
    [{}], its [timezone_offset] taken from the default when it is
    undefined), the response is an error that carries the message [m]
    of the thrown [Error] object, or "Unknown error" when what was
    thrown is no [Error] object, and whose code is -32602 iff that
    message contains "required" or "Invalid", and -32603 otherwise: the
    class of the error is read off the text of the message. *)
Theorem C10_error_code
  (parseDateTime : Input.ChronoParseInput -> M ChronoParseOutput)
  (request : JSONRPCRequest) (defaultTimezoneOffset : option Z)
  (p : Params) (args : Args.Arguments) (w w' : World) (e : Thrown)
  (Hmethod : method request = "tools/call")
  (Hparams : params request = Some p)
  (Hname : name p = Str "chrono_parse")
  (Hargs : args = match arguments p with
                  | Some a => a
                  | None => Args.mk Undefined None Absent None Undefined
                  end)
  (Hthrow : parseDateTime
              (Input.mk (Args.text args) (Args.reference args)
                 (match Args.timezone_offset args with
                  | Present z => Some z
                  | IsNull => None
                  | Absent => defaultTimezoneOffset
                  end)
                 (Args.forwardOnly args) (Args.mode args)) w
            = (inl e, w')) :
  exists c msg,
    handleMCPRequest parseDateTime request defaultTimezoneOffset w
    = (mkResponse (id request) None (Some (mkError c msg)), w')
    /\ msg = match e with
             | ErrorObj m => m
             | NonError => "Unknown error"
             end
    /\ (c = -32602 <-> contains msg "required" \/ contains msg "Invalid")
    /\ (c = -32603 <-> ~ contains msg "required" /\ ~ contains msg "Invalid").
Proof.
  assert (toolArguments p defaultTimezoneOffset
          = Input.mk (Args.text args) (Args.reference args)
              (match Args.timezone_offset args with
               | Present z => Some z
               | IsNull => None
               | Absent => defaultTimezoneOffset
               end)
              (Args.forwardOnly args) (Args.mode args)) as Hcall.
  { unfold toolArguments, emptyArguments. rewrite <- Hargs.
    destruct (Args.timezone_offset args), defaultTimezoneOffset; reflexivity. }
  unfold handleMCPRequest. rewrite Hmethod, Hparams, Hname.
  cbn [String.eqb Ascii.eqb Bool.eqb strictEqStr negb].
  rewrite Hcall, Hthrow. unfold toolError, contains.
  eexists _, _. split; [reflexivity|].
  split; [destruct e; reflexivity|].
  rewrite <- !IncludesFacts.includes_spec.
  destruct (includes (messageOf e) "required");
    destruct (includes (messageOf e) "Invalid"); cbn [orb];
    (split; split; [| | |]);
    try (intros _; tauto); try discriminate; try tauto;
    try (intros [H|H]; discriminate H);
    try (intros [H1 H2]; exfalso; first [now apply H1 | now apply H2]);
    try (intros _; split; discriminate).
Qed.

End Claim_C10.

Lemma C10_witness :
  exists c msg,
    Handler.handleMCPRequest (parseDateTime ISO.Date_parse Sample.brokenParse)
      (sampleCall (Sample.request (Str "tomorrow") None Undefined)) (Some 540)
      Sample.world0
    = (Handler.mkResponse (Num (Some 1)) None (Some (Handler.mkError c msg)),
       logged Sample.world0
         [EvParse "tomorrow" (mkDate (Some 1759572000000)) 540 true])
    /\ msg = "Cannot read properties of undefined"
    /\ (c = -32602 <-> contains msg "required" \/ contains msg "Invalid")
    /\ (c = -32603 <-> ~ contains msg "required" /\ ~ contains msg "Invalid").
Proof.
  apply (C10_error_code (parseDateTime ISO.Date_parse Sample.brokenParse)
           (sampleCall (Sample.request (Str "tomorrow") None Undefined)) (Some 540)
           (Handler.mkParams (Str "chrono_parse")
              (Some (argumentsOf (Sample.request (Str "tomorrow") None Undefined))))
           (argumentsOf (Sample.request (Str "tomorrow") None Undefined))
           Sample.world0
           (logged Sample.world0
              [EvParse "tomorrow" (mkDate (Some 1759572000000)) 540 true])
           (ErrorObj "Cannot read properties of undefined")).
  - reflexivity.
  - reflexivity.
  - reflexivity.
  - reflexivity.
  - vm_compute. reflexivity.
Defined.

(** The three kinds of failure through the handler: a missing text and
    an unreadable reference are answered with -32602, a failure inside
    chrono-node with -32603. *)
Example missing_text_code :
  Handler.error
    (fst (Handler.handleMCPRequest (parseDateTime ISO.Date_parse Sample.twoMatches)
            (Handler.mkRequest (Num (Some 1)) "tools/call"
               (Some (Handler.mkParams (Str "chrono_parse") None)))
            None Sample.world0))
  = Some (Handler.mkError (-32602) "text is required and must be a string").
Proof. vm_compute. reflexivity. Qed.

Example bad_reference_code :
  Handler.error
    (fst (Handler.handleMCPRequest (parseDateTime ISO.Date_parse Sample.twoMatches)
            (sampleCall (Input.mk (Str "tomorrow") (Some "soon") None None Undefined))
            None Sample.world0))
  = Some (Handler.mkError (-32602) "Invalid reference date: soon").
Proof. vm_compute. reflexivity. Qed.

Example broken_capability_code :
  Handler.error
    (fst (Handler.handleMCPRequest (parseDateTime ISO.Date_parse Sample.brokenParse)
            (sampleCall (Sample.request (Str "tomorrow") None Undefined))
            None Sample.world0))
  = Some (Handler.mkError (-32603) "Cannot read properties of undefined").
Proof. vm_compute. reflexivity. Qed.

(** The message decides, not the kind of failure: a failure inside
    chrono-node whose message happens to contain "Invalid" is answered
    as a client error. *)
Example message_decides :
  Handler.toolError (sampleCall (Sample.request Undefined None Undefined))
    (ErrorObj "Invalid time value")
  = Handler.mkResponse (Num (Some 1)) None
      (Some (Handler.mkError (-32602) "Invalid time value")).
Proof. vm_compute. reflexivity. Qed.

(** The default offset of the query parameter fills a [timezone_offset]
    that is undefined, and neither one that is given nor one that is
    [null]. *)
Example default_offset_merge :
  let call offset :=
    Handler.toolArguments
      (Handler.mkParams (Str "chrono_parse")
         (Some (Handler.Args.mk (Str "x") None offset None Undefined)))
      (Some 540) in
  Input.timezone_offset (call Handler.Absent) = Some 540
  /\ Input.timezone_offset (call (Handler.Present 330)) = Some 330
  /\ Input.timezone_offset (call Handler.IsNull) = None.
Proof. repeat split. Qed.

(** [Date.parse] on the references of the repository's tests and on
    other strings inside and outside the format. *)
Example Date_parse_forms :
  map ISO.Date_parse
    ["2025-10-04T10:00:00+09:00"; "2025-10-04T10:00:00Z";
     "2025-10-04T10:00:00-05:00"; "2025-10-04T10:00:00+05:30";
     "2025-01-01T00:00:00Z"; "2025-03-15"; "2025-03-15T14:30";
     "+002025-03-15T00:00:00.000Z"]
  = [Some 1759539600000; Some 1759572000000; Some 1759590000000;
     Some 1759552200000; Some 1735689600000; Some 1741996800000;
     Some 1742049000000; Some 1741996800000].
Proof. vm_compute. reflexivity. Qed.

Example Date_parse_rejects :
  map ISO.Date_parse
    ["soon"; ""; "2025-13-01"; "2025-03-15T25:00Z"; "2025-03-15Z";
     "-000000-01-01T00:00:00Z"; "2025-10-04T10:00:00+24:00"]
  = [None; None; None; None; None; None; None].
Proof. vm_compute. reflexivity. Qed.

(** * Further properties of the parser *)

Module AppendFacts.

Lemma append_assoc (a b c : string) :
  append (append a b) c = append a (append b c).
Proof. induction a as [|x a IH]; cbn; [reflexivity | now rewrite IH]. Qed.

Lemma append_nil_r (a : string) : append a "" = a.
Proof. induction a as [|x a IH]; cbn; [reflexivity | now rewrite IH]. Qed.

Lemma append_inv_head (a b c : string) : append a b = append a c -> b = c.
Proof. induction a as [|x a IH]; cbn; [auto | intros H; injection H; auto]. Qed.

End AppendFacts.

Module RenderMore.

Import AppendFacts.

(** A rendering is the date-time part of the shifted date followed by
    the suffix of the offset. *)
Lemma toISOWithOffset_parts date offsetMinutes :
  toISOWithOffset date offsetMinutes
  = append
      (dateTimePart
         (Date_of_number (add (getTime date) (Some (offsetMinutes * 60 * 1000)))))
      (offsetSuffix offsetMinutes).
Proof.
  unfold toISOWithOffset, dateTimePart, offsetSuffix. cbv zeta.
  rewrite !append_assoc. reflexivity.
Qed.

Lemma offsetSuffix_fixed offsetMinutes :
  Z.abs offsetMinutes <= 5999 ->
  offsetSuffix offsetMinutes
  = append (if 0 <=? offsetMinutes then "+" else "-")
      (append (fixed 2 (Z.abs offsetMinutes / 60))
         (append ":" (fixed 2 (Z.abs offsetMinutes mod 60)))).
Proof.
  intros H. unfold offsetSuffix.
  rewrite Z.rem_mod_nonneg by lia. rewrite !pad2 by zdiv.
  rewrite Z.geb_leb. reflexivity.
Qed.

(** The suffix of an offset below 24 hours reads back as the offset. *)
Lemma read_offset_suffix offsetMinutes :
  Z.abs offsetMinutes <= 1439 ->
  read_offset (offsetSuffix offsetMinutes) = Some offsetMinutes.
Proof.
  intros Ho. rewrite offsetSuffix_fixed by lia. unfold read_offset.
  destruct (Z.leb_spec 0 offsetMinutes);
    cbn [append Ascii.eqb Bool.eqb];
    rewrite read_digits_fixed by (cbn; zdiv); cbv beta iota;
    cbn [expect Ascii.eqb Bool.eqb];
    replace (fixed 2 (Z.abs offsetMinutes mod 60))
      with (append (fixed 2 (Z.abs offsetMinutes mod 60)) "")
      by apply append_nil_r;
    rewrite read_digits_fixed by (cbn; zdiv); cbv beta iota;
    (replace (Z.abs offsetMinutes / 60 <=? 23) with true
      by (symmetry; apply Z.leb_le; zdiv));
    (replace (Z.abs offsetMinutes mod 60 <=? 59) with true
      by (symmetry; apply Z.leb_le; zdiv));
    cbn [andb]; f_equal; zdiv.
Qed.

Lemma renderISO_suffix localTime offsetMinutes :
  Z.abs offsetMinutes <= 5999 ->
  substring 23 6 (renderISO localTime offsetMinutes) = offsetSuffix offsetMinutes.
Proof.
  intros H. rewrite offsetSuffix_fixed by assumption. unfold renderISO.
  destruct (0 <=? offsetMinutes); reflexivity.
Qed.

End RenderMore.

Import AppendFacts RenderMore.

(** X1. When the date is invalid, or when the shifted time value leaves
    the range of [Date], [toISOWithOffset] does not fail: every field
    of the rendering reads "NaN", and the suffix of the offset follows
    as for any date. *)
Theorem toISOWithOffset_invalid (date : Date) (offsetMinutes : Z)
  (Hinvalid : getTime date = None
              \/ exists t, getTime date = Some t
                           /\ maxTime < Z.abs (t + offsetMinutes * 60 * 1000)) :
  toISOWithOffset date offsetMinutes
  = append "NaN-NaN-NaNTNaN:NaN:NaN.NaN" (offsetSuffix offsetMinutes).
Proof.
  rewrite toISOWithOffset_parts.
  assert (Date_of_number (add (getTime date) (Some (offsetMinutes * 60 * 1000)))
          = mkDate None) as ->.
  { destruct Hinvalid as [->|(t & -> & Ht)]; [reflexivity|].
    cbn [add]. unfold Date_of_number, TimeClip.
    destruct (Z.leb_spec (Z.abs (t + offsetMinutes * 60 * 1000)) maxTime);
      [lia|reflexivity]. }
  reflexivity.
Qed.

Lemma toISOWithOffset_invalid_witness :
  toISOWithOffset (mkDate (Some 8640000000000000)) 1
  = append "NaN-NaN-NaNTNaN:NaN:NaN.NaN" (offsetSuffix 1).
Proof.
  apply toISOWithOffset_invalid. right. exists 8640000000000000.
  split; [reflexivity | vm_compute; reflexivity].
Defined.

(** X2. Rendering an instant at an offset is rendering the shifted
    instant at offset 0, with another suffix: the two strings have the
    same date-time part, whatever the instant and the offset. *)
Theorem toISOWithOffset_shift (t offsetMinutes : Z) :
  exists body : string,
    toISOWithOffset (mkDate (Some t)) offsetMinutes
    = append body (offsetSuffix offsetMinutes)
    /\ toISOWithOffset (mkDate (Some (t + offsetMinutes * 60 * 1000))) 0
       = append body "+00:00".
Proof.
  exists (dateTimePart (Date_of_number (Some (t + offsetMinutes * 60 * 1000)))).
  rewrite !toISOWithOffset_parts. cbn [getTime add]. split; [reflexivity|].
  replace (t + offsetMinutes * 60 * 1000 + 0 * 60 * 1000)
    with (t + offsetMinutes * 60 * 1000) by lia.
  reflexivity.
Qed.


Lemma TimeClip_inj a b :
  Z.abs a <= maxTime -> Z.abs b <= maxTime -> TimeClip a = TimeClip b -> a = b.
Proof.
  unfold TimeClip. intros Ha Hb.
  destruct (Z.leb_spec (Z.abs a) maxTime); [|lia].
  destruct (Z.leb_spec (Z.abs b) maxTime); [|lia].
  congruence.
Qed.

Lemma renderISO_offset_inj l1 l2 o1 o2 :
  Z.abs o1 <= 1439 -> Z.abs o2 <= 1439 ->
  renderISO l1 o1 = renderISO l2 o2 -> o1 = o2.
Proof.
  intros H1 H2 Heq.
  assert (Some o1 = Some o2) as E; [|congruence].
  rewrite <- (read_offset_suffix o1 H1), <- (read_offset_suffix o2 H2).
  rewrite <- (renderISO_suffix l1 o1) by lia.
  rewrite <- (renderISO_suffix l2 o2) by lia.
  now rewrite Heq.
Qed.

(** X3. Within the format the rendering loses nothing: for offsets
    below 24 hours and shifted instants in four-digit years, two
    renderings are the same string only if both the instants and the
    offsets are the same. *)
Theorem toISOWithOffset_injective (t1 t2 o1 o2 : Z)
  (Hy1 : 1000 <= YearFromTime (t1 + o1 * 60 * 1000) <= 9999)
  (Hy2 : 1000 <= YearFromTime (t2 + o2 * 60 * 1000) <= 9999)
  (Ho1 : Z.abs o1 <= 1439) (Ho2 : Z.abs o2 <= 1439)
  (Heq : toISOWithOffset (mkDate (Some t1)) o1 = toISOWithOffset (mkDate (Some t2)) o2) :
  t1 = t2 /\ o1 = o2.
Proof.
  rewrite (toISOWithOffset_render (mkDate (Some t1)) o1 t1 eq_refl Hy1) in Heq by lia.
  rewrite (toISOWithOffset_render (mkDate (Some t2)) o2 t2 eq_refl Hy2) in Heq by lia.
  pose proof (renderISO_offset_inj _ _ _ _ Ho1 Ho2 Heq) as Ho.
  split; [|exact Ho]. subst o2.
  pose proof (four_digit_year_time _ Hy1) as B1.
  pose proof (four_digit_year_time _ Hy2) as B2.
  assert (TimeClip (t1 + o1 * 60 * 1000 - o1 * msPerMinute)
          = TimeClip (t2 + o1 * 60 * 1000 - o1 * msPerMinute)) as Hp.
  { rewrite <- !Date_parse_render by lia. now rewrite Heq. }
  apply TimeClip_inj in Hp; unfold msPerMinute, maxTime in *; lia.
Qed.

Lemma toISOWithOffset_injective_witness :
  1759654800123 = 1759654800123 /\ 330 = 330.
Proof.
  apply (toISOWithOffset_injective 1759654800123 1759654800123 330 330).
  - vm_compute. split; discriminate.
  - vm_compute. split; discriminate.
  - vm_compute. discriminate.
  - vm_compute. discriminate.
  - reflexivity.
Defined.

(** X4. Whatever the component set, no field name occurs twice in
    [certain] or in [implied], and the two lists together hold at most
    eight names. *)
Theorem extractComponents_NoDup (c : Chrono.ParsedComponents) :
  NoDup (fst (extractComponents c))
  /\ NoDup (snd (extractComponents c))
  /\ (List.length (fst (extractComponents c))
      + List.length (snd (extractComponents c)) <= 8)%nat.
Proof.
  rewrite ExtractFacts.extractComponents_filter. cbn [fst snd].
  split; [apply NoDup_filter, ExtractFacts.allKeys_NoDup|].
  split; [apply NoDup_filter, ExtractFacts.allKeys_NoDup|].
  assert (forall keys,
             (List.length (filter (Chrono.isCertain c) keys)
              + List.length (filter (isImplied c) keys) <= List.length keys)%nat) as H.
  { induction keys as [|k keys IH]; [cbn; lia|].
    cbn [filter]. unfold isImplied at 1.
    destruct (Chrono.isCertain c k); cbn [negb andb List.length]; [lia|].
    destruct (Chrono.get c k); cbn [List.length]; lia. }
  apply (H allKeys).
Qed.

Section MoreParser.

Variable Date_parse : string -> Number.
Variable chrono_parse :
  string -> Date -> Z -> bool -> Thrown + list Chrono.ParsedResult.

(** X5. A request whose text is valid and whose reference is not blank
    and denotes no instant fails with the error "Invalid reference
    date: " followed by the reference, and nothing else happens:
    neither the clock nor chrono-node is called. *)
Theorem parseDateTime_invalid_reference
  (input : Input.ChronoParseInput) (w : World) (s r : string)
  (Htext : Input.text input = Str s) (Hs : s <> "")
  (Href : Input.reference input = Some r)
  (Hblank : blank r = false)
  (Hnan : Date_parse r = None) :
  parseDateTime Date_parse chrono_parse input w
  = (inl (ErrorObj (append "Invalid reference date: " r)), w).
Proof.
  rewrite parseDateTime_outcome, Htext, (valid_text s Hs), Href.
  unfold normalizeReference.
  rewrite TrimFacts.trim_blank, TrimFacts.empty_blank, Hblank.
  cbn [getTime]. rewrite Hnan. reflexivity.
Qed.

(** X6. When chrono-node throws, [parseDateTime] throws the same
    value; the only calls after the reference has been resolved are
    that one call of [chrono.parse], and nothing is projected. *)
Theorem parseDateTime_capability_failure
  (input : Input.ChronoParseInput) (w : World) (s : string)
  (refDate : Date) (w1 : World) (e : Thrown)
  (Htext : Input.text input = Str s) (Hs : s <> "")
  (Href : normalizeReference Date_parse (Input.reference input) w = (inr refDate, w1))
  (Hfail : chrono_parse s refDate (offsetOf input) (forwardOf input) = inl e) :
  parseDateTime Date_parse chrono_parse input w
  = (inl e, logged w1 [EvParse s refDate (offsetOf input) (forwardOf input)]).
Proof.
  rewrite parseDateTime_outcome, Htext, (valid_text s Hs), Href.
  cbn [asString]. cbv zeta. rewrite Hfail. reflexivity.
Qed.

Lemma normalizeReference_blank r w :
  blank r = true ->
  normalizeReference Date_parse (Some r) w = normalizeReference Date_parse None w.
Proof.
  intros H. unfold normalizeReference.
  rewrite TrimFacts.trim_blank, TrimFacts.empty_blank, H. reflexivity.
Qed.

(** X7. The defaults of a request: a run is the run of the request
    with its defaults written out, where a blank reference is no
    reference, an absent [timezone_offset] is 0 and an absent
    [forwardOnly] is [true]. *)
Theorem parseDateTime_defaults (input : Input.ChronoParseInput) (w : World) :
  parseDateTime Date_parse chrono_parse input w
  = parseDateTime Date_parse chrono_parse (withDefaults input) w.
Proof.
  rewrite !parseDateTime_outcome. unfold withDefaults, offsetOf, forwardOf.
  cbn [Input.text Input.reference Input.timezone_offset Input.forwardOnly Input.mode].
  assert (normalizeReference Date_parse
            match Input.reference input with
            | Some r => if blank r then None else Some r
            | None => None
            end w
          = normalizeReference Date_parse (Input.reference input) w) as ->.
  { destruct (Input.reference input) as [r|]; [|reflexivity].
    destruct (blank r) eqn:E; [|reflexivity].
    symmetry. now apply normalizeReference_blank. }
  reflexivity.
Qed.

(** X8. The response under mode "first" is the head of the response
    under mode "all": the two runs fail alike, or both answer and the
    results of the first are the first result, if any, of the second. *)
Theorem parseDateTime_first_of_all (input : Input.ChronoParseInput) (w : World) :
  match parseDateTime Date_parse chrono_parse (withMode input (Str "first")) w,
        parseDateTime Date_parse chrono_parse (withMode input (Str "all")) w with
  | (inr first, _), (inr all, _) => results first = firstn 1 (results all)
  | (inl e1, w1), (inl e2, w2) => e1 = e2 /\ w1 = w2
  | _, _ => False
  end.
Proof.
  rewrite !parseDateTime_outcome. unfold withMode, offsetOf, forwardOf, selected.
  cbn [Input.text Input.reference Input.timezone_offset Input.forwardOnly
       Input.mode strictEqStr String.eqb Ascii.eqb Bool.eqb].
  destruct (negb (truthy (Input.text input)) || negb (isString (Input.text input)));
    [split; reflexivity|].
  destruct (normalizeReference Date_parse (Input.reference input) w)
    as [[e|refDate] w1]; [split; reflexivity|].
  cbv zeta.
  destruct (chrono_parse _ _ _ _) as [e|all]; [split; reflexivity|].
  destruct all as [|r rest]; reflexivity.
Qed.

End MoreParser.

Module FeedbackFacts.

Lemma digit_not_space c : is_digit c = true -> isWhiteSpace c = false.
Proof.
  unfold is_digit, digit_val, isWhiteSpace.
  destruct ((48 <=? Z.of_nat (nat_of_ascii c)) && (Z.of_nat (nat_of_ascii c) <=? 57)) eqn:E;
    [|discriminate].
  intros _. apply andb_true_iff in E. destruct E as [E1 E2].
  apply Z.leb_le in E1, E2.
  destruct (Nat.leb_spec 9 (nat_of_ascii c)); destruct (Nat.leb_spec (nat_of_ascii c) 13);
    destruct (Nat.eqb_spec (nat_of_ascii c) 32);
    destruct (Nat.eqb_spec (nat_of_ascii c) 160); cbn; try reflexivity; lia.
Qed.

Lemma renderISO_not_blank localTime offsetMinutes :
  blank (renderISO localTime offsetMinutes) = false.
Proof.
  unfold renderISO. cbn [fixed append blank].
  rewrite digit_not_space by apply fixed_digit. reflexivity.
Qed.

(** The rendering of an instant reads back as the instant. *)
Lemma Date_parse_toISOWithOffset t offsetMinutes :
  1000 <= YearFromTime (t + offsetMinutes * 60 * 1000) <= 9999 ->
  Z.abs offsetMinutes <= 1439 ->
  ISO.Date_parse (toISOWithOffset (mkDate (Some t)) offsetMinutes) = Some t.
Proof.
  intros Hy Ho.
  rewrite (toISOWithOffset_render (mkDate (Some t)) offsetMinutes t eq_refl Hy) by lia.
  rewrite Date_parse_render by lia.
  pose proof (four_digit_year_time _ Hy) as Hl.
  unfold TimeClip, msPerMinute, maxTime.
  replace (t + offsetMinutes * 60 * 1000 - offsetMinutes * 60000) with t by lia.
  destruct (Z.leb_spec (Z.abs t) 8640000000000000); [reflexivity|lia].
Qed.

End FeedbackFacts.

(** X9. A rendering can be handed back as a reference: for an offset
    below 24 hours and a shifted instant in a four-digit year,
    [normalizeReference] resolves the string that [toISOWithOffset]
    wrote to the instant that was rendered, without reading the
    clock. *)
Theorem normalizeReference_of_rendering (t offsetMinutes : Z) (w : World)
  (Hyear : 1000 <= YearFromTime (t + offsetMinutes * 60 * 1000) <= 9999)
  (Hoff : Z.abs offsetMinutes <= 1439) :
  normalizeReference ISO.Date_parse
    (Some (toISOWithOffset (mkDate (Some t)) offsetMinutes)) w
  = (inr (mkDate (Some t)), w).
Proof.
  unfold normalizeReference.
  rewrite TrimFacts.trim_blank, TrimFacts.empty_blank.
  assert (blank (toISOWithOffset (mkDate (Some t)) offsetMinutes) = false) as ->.
  { rewrite (toISOWithOffset_render (mkDate (Some t)) offsetMinutes t eq_refl Hyear)
      by lia.
    apply FeedbackFacts.renderISO_not_blank. }
  cbn [getTime].
  rewrite (FeedbackFacts.Date_parse_toISOWithOffset t offsetMinutes Hyear Hoff).
  reflexivity.
Qed.

Lemma normalizeReference_of_rendering_witness :
  normalizeReference ISO.Date_parse
    (Some (toISOWithOffset (mkDate (Some 1759654800123)) (-300))) Sample.world0
  = (inr (mkDate (Some 1759654800123)), Sample.world0).
Proof.
  apply (normalizeReference_of_rendering 1759654800123 (-300) Sample.world0).
  - vm_compute. split; discriminate.
  - vm_compute. discriminate.
Defined.

Section MoreParser2.

Variable Date_parse : string -> Number.
Variable chrono_parse :
  string -> Date -> Z -> bool -> Thrown + list Chrono.ParsedResult.

Lemma projectComponent_suffix c offsetMinutes :
  endsWith (iso (projectComponent c offsetMinutes)) (offsetSuffix offsetMinutes).
Proof.
  unfold endsWith, projectComponent. cbn [iso].
  rewrite toISOWithOffset_parts. eexists. reflexivity.
Qed.

(** X10. Every rendering of a response, the start of each result and
    the end of each range, ends with the suffix of the one offset of
    the request ([timezone_offset], or 0). *)
Theorem parseDateTime_iso_suffix
  (input : Input.ChronoParseInput) (w w' : World) (out : ChronoParseOutput)
  (Hrun : parseDateTime Date_parse chrono_parse input w = (inr out, w')) :
  Forall (fun r =>
            endsWith (iso (start r)) (offsetSuffix (offsetOf input))
            /\ match end_ r with
               | Some e => endsWith (iso e) (offsetSuffix (offsetOf input))
               | None => True
               end)
         (results out).
Proof.
  rewrite parseDateTime_outcome in Hrun.
  destruct (negb (truthy (Input.text input)) || negb (isString (Input.text input)));
    [discriminate Hrun|].
  destruct (normalizeReference Date_parse (Input.reference input) w)
    as [[e|refDate] w1]; [discriminate Hrun|].
  cbv zeta in Hrun.
  destruct (chrono_parse _ _ _ _) as [e|all]; [discriminate Hrun|].
  injection Hrun as <- _.
  destruct (selected (Input.mode input) all) as [|r sel]; [constructor|].
  cbn [results]. apply Forall_forall. intros x Hx.
  apply (in_map_iff (project (offsetOf input)) (r :: sel)) in Hx.
  destruct Hx as (c & <- & _).
  unfold project. cbn [start end_]. split.
  - apply projectComponent_suffix.
  - destruct (Chrono.end_ c); cbn [option_map]; [apply projectComponent_suffix|exact I].
Qed.

Lemma normalizeReference_world ref w :
  exists events,
    snd (normalizeReference Date_parse ref w) = logged w events
    /\ count isParse events = 0%nat /\ count isDate events = 0%nat
    /\ (count isNow events <= 1)%nat.
Proof.
  unfold normalizeReference.
  destruct ref as [r|].
  - destruct (String.eqb r "" || String.eqb (trim r) "").
    + exists [EvNow]. cbn. repeat split; lia.
    + cbn [getTime]. destruct (Date_parse r); exists []; cbn;
        rewrite logged_nil; repeat split; lia.
  - exists [EvNow]. cbn. repeat split; lia.
Qed.

Lemma count_app p e1 e2 : count p (e1 ++ e2) = (count p e1 + count p e2)%nat.
Proof. unfold count. now rewrite filter_app, length_app. Qed.

Lemma count_projectEvents sel tz :
  count isDate (flat_map projectEvents sel) = parsedDateTimes (map (project tz) sel)
  /\ count isNow (flat_map projectEvents sel) = 0%nat
  /\ count isParse (flat_map projectEvents sel) = 0%nat.
Proof.
  induction sel as [|r sel (IH1 & IH2 & IH3)]; [repeat split|].
  cbn [flat_map map parsedDateTimes fold_right].
  rewrite !count_app, IH1, IH2, IH3.
  fold (parsedDateTimes (map (project tz) sel)).
  unfold projectEvents, project. cbn [end_].
  destruct (Chrono.end_ r); cbn; repeat split; lia.
Qed.

(** X11. The calls of one run: the trace grows by the calls of the
    run and the clock is as before; the clock is read at most once and
    [chrono.parse] is called at most once; a run that answers has
    called [chrono.parse] exactly once and has resolved one component
    set for each [ParsedDateTime] of its results; a run that fails has
    resolved none. *)
Theorem parseDateTime_calls (input : Input.ChronoParseInput) (w : World) :
  exists events,
    snd (parseDateTime Date_parse chrono_parse input w) = logged w events
    /\ (count isNow events <= 1)%nat
    /\ (count isParse events <= 1)%nat
    /\ match fst (parseDateTime Date_parse chrono_parse input w) with
       | inr out =>
           count isParse events = 1%nat
           /\ count isDate events = parsedDateTimes (results out)
       | inl _ => count isDate events = 0%nat
       end.
Proof.
  rewrite parseDateTime_outcome.
  destruct (negb (truthy (Input.text input)) || negb (isString (Input.text input))).
  { exists []. cbn [fst snd]. rewrite logged_nil. repeat split; cbn; lia. }
  destruct (normalizeReference_world (Input.reference input) w)
    as (ev & Hw & Hp & Hd & Hn).
  destruct (normalizeReference Date_parse (Input.reference input) w)
    as [[e|refDate] w1]; cbn [snd] in Hw; subst w1.
  { exists ev. cbn [fst snd]. repeat split; lia. }
  cbv zeta.
  destruct (chrono_parse _ _ _ _) as [e|all]; cbn [fst snd].
  { eexists. rewrite logged_app. split; [reflexivity|].
    rewrite !count_app. cbn. repeat split; lia. }
  eexists. rewrite logged_app. split; [reflexivity|].
  destruct (selected (Input.mode input) all) as [|r sel].
  { rewrite !count_app. cbn. repeat split; lia. }
  destruct (count_projectEvents (r :: sel) (offsetOf input)) as (C1 & C2 & C3).
  rewrite !count_app.
  change (EvParse (asString (Input.text input)) refDate (offsetOf input) (forwardOf input)
            :: flat_map projectEvents (r :: sel))
    with ([EvParse (asString (Input.text input)) refDate (offsetOf input) (forwardOf input)]
            ++ flat_map projectEvents (r :: sel)).
  rewrite !count_app, C1, C2, C3.
  cbn [count filter isNow isParse isDate List.length results].
  repeat split; lia.
Qed.

End MoreParser2.

Lemma parseDateTime_invalid_reference_witness :
  parseDateTime ISO.Date_parse Sample.twoMatches
    (Input.mk (Str "tomorrow") (Some "next week") None None Undefined) Sample.world0
  = (inl (ErrorObj (append "Invalid reference date: " "next week")), Sample.world0).
Proof.
  apply (parseDateTime_invalid_reference ISO.Date_parse Sample.twoMatches
           (Input.mk (Str "tomorrow") (Some "next week") None None Undefined)
           Sample.world0 "tomorrow" "next week").
  - reflexivity.
  - discriminate.
  - reflexivity.
  - reflexivity.
  - reflexivity.
Defined.

Lemma parseDateTime_capability_failure_witness :
  parseDateTime ISO.Date_parse Sample.brokenParse
    (Sample.request (Str "tomorrow") (Some 540) Undefined) Sample.world0
  = (inl (ErrorObj "Cannot read properties of undefined"),
     logged Sample.world0 [EvParse "tomorrow" sampleRef 540 true]).
Proof.
  apply (parseDateTime_capability_failure ISO.Date_parse Sample.brokenParse
           (Sample.request (Str "tomorrow") (Some 540) Undefined) Sample.world0
           "tomorrow" sampleRef Sample.world0).
  - reflexivity.
  - discriminate.
  - vm_compute. reflexivity.
  - reflexivity.
Defined.

Lemma parseDateTime_iso_suffix_witness :
  Forall (fun r =>
            endsWith (iso (start r)) (offsetSuffix 330)
            /\ match end_ r with
               | Some e => endsWith (iso e) (offsetSuffix 330)
               | None => True
               end)
         (map (project 330)
            [Chrono.mkResult "March 15" Sample.march15 None;
             Chrono.mkResult "5pm to 5pm" (Sample.fivePm 0)
               (Some (Sample.fivePm (-60)))]).
Proof.
  apply (parseDateTime_iso_suffix ISO.Date_parse Sample.twoMatches
           (Sample.request (Str "x") (Some 330) (Str "all")) Sample.world0
           (logged Sample.world0
              (EvParse "x" sampleRef 330 true
                 :: flat_map projectEvents
                      [Chrono.mkResult "March 15" Sample.march15 None;
                       Chrono.mkResult "5pm to 5pm" (Sample.fivePm 0)
                         (Some (Sample.fivePm (-60)))]))
           {| results := map (project 330)
                [Chrono.mkResult "March 15" Sample.march15 None;
                 Chrono.mkResult "5pm to 5pm" (Sample.fivePm 0)
                   (Some (Sample.fivePm (-60)))];
              summary := "Parsed 2 date/time expressions" |}).
  vm_compute. reflexivity.
Defined.

(** * Further properties of the handler *)

Section MoreHandler.

Import Handler.

Variable parseDateTime : Input.ChronoParseInput -> M ChronoParseOutput.

(** X12. Every response of [handleMCPRequest] carries either a result
    or an error, never both and never neither. *)
Theorem handleMCPRequest_result_xor_error
  (request : JSONRPCRequest) (defaultTimezoneOffset : option Z) (w : World) :
  let response := fst (handleMCPRequest parseDateTime request defaultTimezoneOffset w) in
  (result response <> None /\ error response = None)
  \/ (result response = None /\ error response <> None).
Proof.
  unfold handleMCPRequest.
  destruct (String.eqb (method request) "initialize");
    [left; split; [discriminate|reflexivity]|].
  destruct (String.eqb (method request) "tools/list");
    [left; split; [discriminate|reflexivity]|].
  destruct (String.eqb (method request) "tools/call").
  - destruct (params request) as [p|]; [|right; split; [reflexivity|discriminate]].
    destruct (negb (strictEqStr (name p) "chrono_parse"));
      [right; split; [reflexivity|discriminate]|].
    cbv zeta.
    destruct (parseDateTime (toolArguments p defaultTimezoneOffset) w) as [[e|out] w'].
    + right; split; [reflexivity|discriminate].
    + left; split; [discriminate|reflexivity].
  - destruct (String.eqb (method request) "notifications/initialized");
      [left; split; [discriminate|reflexivity]
      |right; split; [reflexivity|discriminate]].
Qed.

(** X14. The response carries the [id] of the request, except the
    answer to [notifications/initialized], which carries none. *)
Theorem handleMCPRequest_id
  (request : JSONRPCRequest) (defaultTimezoneOffset : option Z) (w : World) :
  response_id (fst (handleMCPRequest parseDateTime request defaultTimezoneOffset w))
  = if String.eqb (method request) "notifications/initialized"
    then Undefined else id request.
Proof.
  unfold handleMCPRequest.
  destruct (String.eqb_spec (method request) "initialize") as [E|_];
    [rewrite E; reflexivity|].
  destruct (String.eqb_spec (method request) "tools/list") as [E|_];
    [rewrite E; reflexivity|].
  destruct (String.eqb_spec (method request) "tools/call") as [E|_].
  - rewrite E. cbn [String.eqb Ascii.eqb Bool.eqb].
    destruct (params request) as [p|]; [|reflexivity].
    destruct (negb (strictEqStr (name p) "chrono_parse")); [reflexivity|].
    cbv zeta.
    destruct (parseDateTime (toolArguments p defaultTimezoneOffset) w) as [[e|out] w'];
      reflexivity.
  - destruct (String.eqb (method request) "notifications/initialized"); reflexivity.
Qed.

End MoreHandler.

Section MoreHandler2.

Import Handler.

(** X13. [parseDateTime] is called for a [tools/call] of the tool
    [chrono_parse] only: for any other request the response does not
    depend on [parseDateTime], and no call leaves the handler. *)
Theorem handleMCPRequest_other_requests
  (parse1 parse2 : Input.ChronoParseInput -> M ChronoParseOutput)
  (request : JSONRPCRequest) (defaultTimezoneOffset : option Z) (w : World)
  (Hother : method request <> "tools/call"
            \/ params request = None
            \/ exists p, params request = Some p /\ name p <> Str "chrono_parse") :
  handleMCPRequest parse1 request defaultTimezoneOffset w
  = handleMCPRequest parse2 request defaultTimezoneOffset w
  /\ snd (handleMCPRequest parse1 request defaultTimezoneOffset w) = w.
Proof.
  unfold handleMCPRequest.
  destruct (String.eqb (method request) "initialize"); [split; reflexivity|].
  destruct (String.eqb (method request) "tools/list"); [split; reflexivity|].
  destruct (String.eqb_spec (method request) "tools/call") as [E|_].
  - destruct Hother as [H|[H|(p & H & Hn)]]; [contradiction| |]; rewrite H.
    + split; reflexivity.
    + assert (strictEqStr (name p) "chrono_parse" = false) as ->.
      { destruct (name p); try reflexivity. cbn.
        apply String.eqb_neq. congruence. }
      split; reflexivity.
  - destruct (String.eqb (method request) "notifications/initialized");
      split; reflexivity.
Qed.

End MoreHandler2.

Lemma handleMCPRequest_other_requests_witness :
  Handler.handleMCPRequest (parseDateTime ISO.Date_parse Sample.twoMatches)
    (Handler.mkRequest (Num (Some 7)) "tools/call"
       (Some (Handler.mkParams (Str "weather") None)))
    (Some 540) Sample.world0
  = Handler.handleMCPRequest (parseDateTime ISO.Date_parse Sample.brokenParse)
      (Handler.mkRequest (Num (Some 7)) "tools/call"
         (Some (Handler.mkParams (Str "weather") None)))
      (Some 540) Sample.world0
  /\ snd (Handler.handleMCPRequest (parseDateTime ISO.Date_parse Sample.twoMatches)
            (Handler.mkRequest (Num (Some 7)) "tools/call"
               (Some (Handler.mkParams (Str "weather") None)))
            (Some 540) Sample.world0)
     = Sample.world0.
Proof.
  apply (handleMCPRequest_other_requests
           (parseDateTime ISO.Date_parse Sample.twoMatches)
           (parseDateTime ISO.Date_parse Sample.brokenParse)).
  right; right. exists (Handler.mkParams (Str "weather") None).
  split; [reflexivity|discriminate].
Defined.

Section ToolCallErrors.

Import Handler.

Variable Date_parse : string -> Number.
Variable chrono_parse :
  string -> Date -> Z -> bool -> Thrown + list Chrono.ParsedResult.


(** X16. A call of the tool with a valid text and a reference that is
    not blank and denotes no instant is answered with the error -32602
    and the message "Invalid reference date: " followed by the
    reference; chrono-node is not called. *)
Theorem tool_call_invalid_reference
  (request : JSONRPCRequest) (defaultTimezoneOffset : option Z)
  (p : Params) (args : Args.Arguments) (s r : string) (w : World)
  (Hmethod : method request = "tools/call")
  (Hparams : params request = Some p)
  (Hname : name p = Str "chrono_parse")
  (Hargs : arguments p = Some args)
  (Htext : Args.text args = Str s) (Hs : s <> "")
  (Href : Args.reference args = Some r)
  (Hblank : blank r = false)
  (Hnan : Date_parse r = None) :
  handleMCPRequest (parseDateTime Date_parse chrono_parse) request
    defaultTimezoneOffset w
  = (mkResponse (id request) None
       (Some (mkError (-32602) (append "Invalid reference date: " r))), w).
Proof.
  unfold handleMCPRequest. rewrite Hmethod, Hparams, Hname.
  cbn [String.eqb Ascii.eqb Bool.eqb strictEqStr negb]. cbv zeta.
  assert (parseDateTime Date_parse chrono_parse
            (toolArguments p defaultTimezoneOffset) w
          = (inl (ErrorObj (append "Invalid reference date: " r)), w)) as ->.
  { rewrite parseDateTime_outcome. unfold toolArguments. rewrite Hargs.
    cbn [Input.text Input.reference]. rewrite Htext, (valid_text s Hs), Href.
    unfold normalizeReference.
    rewrite TrimFacts.trim_blank, TrimFacts.empty_blank, Hblank.
    cbn [getTime]. rewrite Hnan. reflexivity. }
  unfold toolError, messageOf.
  assert (includes (append "Invalid reference date: " r) "Invalid" = true) as ->
    by reflexivity.
  rewrite orb_true_r. reflexivity.
Qed.

End ToolCallErrors.


Lemma tool_call_invalid_reference_witness :
  Handler.handleMCPRequest (parseDateTime ISO.Date_parse Sample.twoMatches)
    (sampleCall (Input.mk (Str "tomorrow") (Some "next week") None None Undefined))
    None Sample.world0
  = (Handler.mkResponse (Num (Some 1)) None
       (Some (Handler.mkError (-32602)
                (append "Invalid reference date: " "next week"))),
     Sample.world0).
Proof.
  apply (tool_call_invalid_reference ISO.Date_parse Sample.twoMatches
           (sampleCall (Input.mk (Str "tomorrow") (Some "next week") None None Undefined))
           None
           (Handler.mkParams (Str "chrono_parse")
              (Some (argumentsOf
                       (Input.mk (Str "tomorrow") (Some "next week") None None Undefined))))
           (argumentsOf (Input.mk (Str "tomorrow") (Some "next week") None None Undefined))
           "tomorrow" "next week" Sample.world0).
  - reflexivity.
  - reflexivity.
  - reflexivity.
  - reflexivity.
  - reflexivity.
  - discriminate.
  - reflexivity.
  - reflexivity.
  - reflexivity.
Defined.

Section DefaultOffset.

Import Handler.

Variable parseDateTime : Input.ChronoParseInput -> M ChronoParseOutput.

(** X17. The default offset of the query parameter stands in for a
    [timezone_offset] that the arguments leave undefined: the call is
    answered as the call that gives the default as its
    [timezone_offset], under any default. *)
Theorem tool_call_default_offset
  (i : Value) (toolName : Value) (args : Args.Arguments) (d : Z)
  (other : option Z) (w : World)
  (Habsent : Args.timezone_offset args = Absent) :
  handleMCPRequest parseDateTime
    (mkRequest i "tools/call" (Some (mkParams toolName (Some args)))) (Some d) w
  = handleMCPRequest parseDateTime
      (mkRequest i "tools/call"
         (Some (mkParams toolName
                  (Some (Args.mk (Args.text args) (Args.reference args) (Present d)
                           (Args.forwardOnly args) (Args.mode args))))))
      other w.
Proof.
  unfold handleMCPRequest. cbn [method params id name String.eqb Ascii.eqb Bool.eqb].
  destruct (negb (strictEqStr toolName "chrono_parse")); [reflexivity|].
  unfold toolArguments. cbn [arguments Args.text Args.reference Args.timezone_offset
                             Args.forwardOnly Args.mode].
  rewrite Habsent. destruct other; reflexivity.
Qed.

(** X18. A [timezone_offset] that the arguments give, a number or
    [null], is not touched by the default: the answer is the same under
    any two defaults. *)
Theorem tool_call_given_offset
  (request : JSONRPCRequest) (p : Params) (args : Args.Arguments)
  (default1 default2 : option Z) (w : World)
  (Hcall : method request = "tools/call")
  (Hparams : params request = Some p)
  (Hargs : arguments p = Some args)
  (Hgiven : Args.timezone_offset args <> Absent) :
  handleMCPRequest parseDateTime request default1 w
  = handleMCPRequest parseDateTime request default2 w.
Proof.
  unfold handleMCPRequest. rewrite Hcall, Hparams.
  cbn [String.eqb Ascii.eqb Bool.eqb].
  destruct (negb (strictEqStr (name p) "chrono_parse")); [reflexivity|].
  unfold toolArguments. rewrite Hargs.
  destruct (Args.timezone_offset args); [contradiction| |];
    destruct default1, default2; reflexivity.
Qed.

End DefaultOffset.

Lemma tool_call_default_offset_witness :
  Handler.handleMCPRequest (parseDateTime ISO.Date_parse Sample.twoMatches)
    (Handler.mkRequest (Num (Some 1)) "tools/call"
       (Some (Handler.mkParams (Str "chrono_parse")
                (Some (argumentsOf (Sample.request (Str "x") None Undefined))))))
    (Some 540) Sample.world0
  = Handler.handleMCPRequest (parseDateTime ISO.Date_parse Sample.twoMatches)
      (Handler.mkRequest (Num (Some 1)) "tools/call"
         (Some (Handler.mkParams (Str "chrono_parse")
                  (Some (Handler.Args.mk (Str "x") (Some "2025-10-04T10:00:00.000Z")
                           (Handler.Present 540) None Undefined)))))
      None Sample.world0.
Proof.
  apply (tool_call_default_offset (parseDateTime ISO.Date_parse Sample.twoMatches)
           (Num (Some 1)) (Str "chrono_parse")
           (argumentsOf (Sample.request (Str "x") None Undefined)) 540 None
           Sample.world0).
  reflexivity.
Defined.

Lemma tool_call_given_offset_witness :
  Handler.handleMCPRequest (parseDateTime ISO.Date_parse Sample.twoMatches)
    (Handler.mkRequest (Num (Some 1)) "tools/call"
       (Some (Handler.mkParams (Str "chrono_parse")
                (Some (Handler.Args.mk (Str "x") None Handler.IsNull None Undefined)))))
    (Some 540) Sample.world0
  = Handler.handleMCPRequest (parseDateTime ISO.Date_parse Sample.twoMatches)
      (Handler.mkRequest (Num (Some 1)) "tools/call"
         (Some (Handler.mkParams (Str "chrono_parse")
                  (Some (Handler.Args.mk (Str "x") None Handler.IsNull None Undefined)))))
      None Sample.world0.
Proof.
  apply (tool_call_given_offset (parseDateTime ISO.Date_parse Sample.twoMatches)
           (Handler.mkRequest (Num (Some 1)) "tools/call"
              (Some (Handler.mkParams (Str "chrono_parse")
                       (Some (Handler.Args.mk (Str "x") None Handler.IsNull None
                                Undefined)))))
           (Handler.mkParams (Str "chrono_parse")
              (Some (Handler.Args.mk (Str "x") None Handler.IsNull None Undefined)))
           (Handler.Args.mk (Str "x") None Handler.IsNull None Undefined)
           (Some 540) None Sample.world0).
  - reflexivity.
  - reflexivity.
  - reflexivity.
  - discriminate.
Defined.
